(** * Victoriabank MIA SDK: request validation and dispatch

    A shallow embedding of [victoriabank_mia_sdk/victoriabank_mia_api.py]
    (class [VictoriabankMiaApi]) and the properties of its validators and
    of its two dispatch routines.

    The transport client ([VictoriabankMiaSdk], module
    [victoriabank_mia_sdk.py]) is an external collaborator: its endpoint
    constants, [send_request] and [handle_response] are taken as the
    fields of a record the whole development is parameterised by. *)

From stdpp Require Import base strings gmap list.

#[local] Set Warnings "-register-all".

(** ** Python values *)

(** The values a request payload can hold (what [json] can serialise). *)
Inductive PyVal :=
| PyNone
| PyBool (b : bool)
| PyInt (z : Z)
| PyStr (s : string)
| PyList (l : list PyVal)
| PyDict (m : gmap string PyVal).

(** An argument annotated [dict]: a dictionary, or [None]. *)
Abbreviation PyDictArg := (option (gmap string PyVal)).

(** An argument annotated [str]: a string, or [None]. *)
Abbreviation PyStrArg := (option string).

(** An argument annotated [list] (of field names), or [None]. *)
Abbreviation PyListArg := (option (list string)).

(** ** Exceptions *)

(** Where a raised object sits in Python's class hierarchy.  Only the
    distinction [except Exception] makes is kept: the domain exception,
    any other subclass of [Exception], and the classes that derive from
    [BaseException] alone ([KeyboardInterrupt], [SystemExit],
    [GeneratorExit]). *)
Inductive ExcClass :=
| VictoriabankPaymentExceptionClass
| ExceptionSubclass (name : string)
| BaseExceptionOnly (name : string).

(** A raised object: its class, [str(ex)] and [ex.__cause__]. *)
Inductive PyExc :=
| MkExc (cls : ExcClass) (text : string) (cause : option PyExc).

Definition exc_class (e : PyExc) : ExcClass := let 'MkExc c _ _ := e in c.
Definition exc_str (e : PyExc) : string := let 'MkExc _ t _ := e in t.
Definition exc_cause (e : PyExc) : option PyExc := let 'MkExc _ _ c := e in c.

(** [isinstance(e, Exception)] *)
Definition isinstance_Exception (e : PyExc) : bool :=
  match exc_class e with
  | BaseExceptionOnly _ => false
  | _ => true
  end.

(** [VictoriabankPaymentException(msg)] *)
Definition VictoriabankPaymentException (msg : string) : PyExc :=
  MkExc VictoriabankPaymentExceptionClass msg None.

(** [raise e from ex] sets [e.__cause__ = ex]. *)
Definition with_cause (e ex : PyExc) : PyExc :=
  MkExc (exc_class e) (exc_str e) (Some ex).

(** [len(None)] *)
Definition TypeError_len_None : PyExc :=
  MkExc (ExceptionSubclass "TypeError")
        "object of type 'NoneType' has no len()" None.

(** ** Results of pure code: a value or a raised exception *)

Inductive Outcome (A : Type) :=
| Return (a : A)
| Raise (e : PyExc).
Arguments Return {A} a.
Arguments Raise {A} e.

#[global] Instance Outcome_ret : MRet Outcome := @Return.
#[global] Instance Outcome_bind : MBind Outcome := λ A B k m,
  match m with
  | Return a => k a
  | Raise e => Raise e
  end.

(** ** Truthiness, [len] and [dict.get] *)

(** [bool(s)] for a [str] or [None]. *)
Definition truthy_str (s : PyStrArg) : bool :=
  match s with
  | None => false
  | Some s => negb (String.length s =? 0)
  end.

(** [bool(d)] for a [dict] or [None]. *)
Definition truthy_dict (d : PyDictArg) : bool :=
  match d with
  | None => false
  | Some m => negb (size m =? 0)
  end.

(** [bool(l)] for a [list] or [None]. *)
Definition truthy_list (l : PyListArg) : bool :=
  match l with
  | None => false
  | Some l => negb (length l =? 0)
  end.

(** [len(s)] for a [str] or [None]. *)
Definition len_str (s : PyStrArg) : Outcome nat :=
  match s with
  | None => Raise TypeError_len_None
  | Some s => Return (String.length s)
  end.

(** [d.get(k)]: the value under [k], or [None]. *)
Definition dict_get (d : gmap string PyVal) (k : string) : PyVal :=
  default PyNone (d !! k).

(** [v is None] *)
Definition is_None (v : PyVal) : bool :=
  match v with
  | PyNone => true
  | _ => false
  end.

(** ** The static validators of [VictoriabankMiaApi] *)

Definition REQUIRED_QR_PARAMS : list string := ["header"; "extension"].
Definition REQUIRED_TEST_PAY_PARAMS : list string := ["qrHeaderUUID"].

Definition msg_access_token : string :=
  "Access token is not valid. It should be a non-empty string.".
Definition msg_missing_id : string := "Missing ID.".
Definition msg_invalid_id : string :=
  "Invalid ID parameter. Should be string of 36 characters.".
Definition msg_missing_param (param : string) : string :=
  "Missing required parameter: " +:+ param.

(** [if not token or len(token) == 0: raise ...] *)
Definition _validate_access_token (token : PyStrArg) : Outcome unit :=
  c ← (if negb (truthy_str token) then Return true
       else n ← len_str token; Return (n =? 0));
  if (c : bool) then Raise (VictoriabankPaymentException msg_access_token)
  else Return tt.

(** [if not entity_id: raise ...] then [if len(entity_id) == 0: raise ...] *)
Definition _validate_id_param (entity_id : PyStrArg) : Outcome unit :=
  if negb (truthy_str entity_id)
  then Raise (VictoriabankPaymentException msg_missing_id)
  else
    n ← len_str entity_id;
    if n =? 0 then Raise (VictoriabankPaymentException msg_invalid_id)
    else Return tt.

(** The loop [for param in required_params: if data.get(param) is None:
    raise ...]. *)
Fixpoint required_loop (data : gmap string PyVal) (required_params : list string)
  : Outcome unit :=
  match required_params with
  | [] => Return tt
  | param :: rest =>
      if is_None (dict_get data param)
      then Raise (VictoriabankPaymentException (msg_missing_param param))
      else required_loop data rest
  end.

(** [if data and required_params: <loop>] then [return True].  The guard
    is true only for a dictionary and a list, both non-empty. *)
Definition _validate_params (data : PyDictArg) (required_params : PyListArg)
  : Outcome bool :=
  (if truthy_dict data && truthy_list required_params
   then match data, required_params with
        | Some d, Some r => required_loop d r
        | _, _ => Return tt
        end
   else Return tt);;
  Return true.

(** ** The transport client *)

(** The keyword arguments of one [send_request] call. *)
Record SendArgs := {
  method : string;
  url : string;
  data : PyDictArg;
  params : PyDictArg;
  token : PyStrArg;
  entity_id : PyStrArg
}.

(** [VictoriabankMiaSdk]: the endpoint constants the dispatcher names and
    the two methods it calls.  [St] is whatever state the client keeps,
    [Raw] its raw responses, [Res] what [handle_response] decodes them to.
    Either method may raise. *)
Record VictoriabankMiaSdk (St Raw Res : Type) := {
  MIA_QR : string;
  MIA_QR_STATUS : string;
  MIA_QR_ID : string;
  MIA_QR_EXTENSIONS : string;
  MIA_QR_ACTIVE_EXTENSION : string;
  MIA_QR_EXTENSION_STATUS : string;
  MIA_TRANSACTIONS_LIST : string;
  SANDBOX_DEMOPAY_URL : string;
  MIA_PAYMENTS_ID : string;
  MIA_PAYMENTS_REFUND : string;
  MIA_PAYMENTS : string;
  send_request : SendArgs → St → Outcome Raw * St;
  handle_response : Raw → string → St → Outcome Res * St
}.
Arguments MIA_QR {St Raw Res} _.
Arguments MIA_QR_STATUS {St Raw Res} _.
Arguments MIA_QR_ID {St Raw Res} _.
Arguments MIA_QR_EXTENSIONS {St Raw Res} _.
Arguments MIA_QR_ACTIVE_EXTENSION {St Raw Res} _.
Arguments MIA_QR_EXTENSION_STATUS {St Raw Res} _.
Arguments MIA_TRANSACTIONS_LIST {St Raw Res} _.
Arguments SANDBOX_DEMOPAY_URL {St Raw Res} _.
Arguments MIA_PAYMENTS_ID {St Raw Res} _.
Arguments MIA_PAYMENTS_REFUND {St Raw Res} _.
Arguments MIA_PAYMENTS {St Raw Res} _.
Arguments send_request {St Raw Res} _ _ _.
Arguments handle_response {St Raw Res} _ _ _ _.

(** ** Calls on the client, observed *)

(** One call on the client and what it gave back. *)
Inductive Event (Raw Res : Type) :=
| EvSend (args : SendArgs) (result : Outcome Raw)
| EvHandle (response : Raw) (endpoint : string) (result : Outcome Res).
Arguments EvSend {Raw Res} args result.
Arguments EvHandle {Raw Res} response endpoint result.

(** The [send_request] calls of a trace, in order. *)
Definition sends {Raw Res} (t : list (Event Raw Res)) : list SendArgs :=
  omap (λ ev, match ev with
              | EvSend args _ => Some args
              | EvHandle _ _ _ => None
              end) t.

(** A method of the dispatcher: from the client's state to an outcome,
    the client's new state and the calls made on the client. *)
Definition M (St Raw Res A : Type) : Type :=
  St → Outcome A * St * list (Event Raw Res).

#[global] Instance M_ret {St Raw Res} : MRet (M St Raw Res) :=
  λ A a s, (Return a, s, []).
#[global] Instance M_bind {St Raw Res} : MBind (M St Raw Res) :=
  λ A B k m s,
    match m s with
    | (Return a, s1, t1) => let '(o, s2, t2) := k a s1 in (o, s2, t1 ++ t2)
    | (Raise e, s1, t1) => (Raise e, s1, t1)
    end.

(** A pure computation run inside a method. *)
Definition lift {St Raw Res A} (o : Outcome A) : M St Raw Res A :=
  λ s, (o, s, []).

(** [raise e] *)
Definition raise {St Raw Res A} (e : PyExc) : M St Raw Res A :=
  lift (Raise e).

(** [try: body / except Exception as ex: handler ex]: a raised object is
    handed to the handler when it is an instance of [Exception]. *)
Definition try_except_Exception {St Raw Res A}
    (body : M St Raw Res A) (handler : PyExc → M St Raw Res A)
  : M St Raw Res A :=
  λ s,
    match body s with
    | (Return a, s1, t1) => (Return a, s1, t1)
    | (Raise ex, s1, t1) =>
        if isinstance_Exception ex
        then let '(o, s2, t2) := handler ex s1 in (o, s2, t1 ++ t2)
        else (Raise ex, s1, t1)
    end.

Section Api.
Context {St Raw Res : Type}.

(** [self._client] *)
Variable _client : VictoriabankMiaSdk St Raw Res.

Local Abbreviation Method := (M St Raw Res).

(** [self._client.send_request(...)] *)
Definition call_send_request (args : SendArgs) : Method Raw :=
  λ s, let '(r, s1) := send_request _client args s in
       (r, s1, [EvSend args r]).

(** [self._client.handle_response(response, endpoint)] *)
Definition call_handle_response (response : Raw) (endpoint : string)
  : Method Res :=
  λ s, let '(r, s1) := handle_response _client response endpoint s in
       (r, s1, [EvHandle response endpoint r]).

(** The f-string of [_send_request]. *)
Definition msg_http_error (method endpoint : string) (ex : PyExc) : string :=
  "HTTP error while sending " +:+ method +:+ " request to endpoint "
    +:+ endpoint +:+ ": " +:+ exc_str ex.

Definition _send_request (method endpoint : string) (token : PyStrArg)
    (data params : PyDictArg) (entity_id : PyStrArg) : Method Res :=
  response ←
    try_except_Exception
      (call_send_request
         {| method := method; url := endpoint; data := data;
            params := params; token := token; entity_id := entity_id |})
      (λ ex, raise (with_cause
                      (VictoriabankPaymentException
                         (msg_http_error method endpoint ex)) ex));
  call_handle_response response endpoint.

Definition _execute_operation (endpoint : string) (data : PyDictArg)
    (token : PyStrArg) (required_params : PyListArg) (method : string)
    (params : PyDictArg) : Method Res :=
  lift (_validate_params data required_params);;
  lift (_validate_access_token token);;
  _send_request method endpoint token data params None.

Definition _execute_entity_id_operation (endpoint : string)
    (entity_id token : PyStrArg) (method : string) (data params : PyDictArg)
  : Method Res :=
  lift (_validate_id_param entity_id);;
  lift (_validate_access_token token);;
  _send_request method endpoint token data params entity_id.

(** The defaults of the keyword arguments [method] of the two routines. *)
Definition _execute_operation_method : string := "POST".
Definition _execute_entity_id_operation_method : string := "GET".

(** *** The public methods *)

Definition qr_create (data params : PyDictArg) (token : PyStrArg) : Method Res :=
  _execute_operation (MIA_QR _client) data token (Some REQUIRED_QR_PARAMS)
    _execute_operation_method params.

Definition qr_status (qr_id : PyStrArg) (params : PyDictArg) (token : PyStrArg)
  : Method Res :=
  _execute_entity_id_operation (MIA_QR_STATUS _client) qr_id token
    _execute_entity_id_operation_method None params.

Definition qr_cancel (qr_id token : PyStrArg) : Method Res :=
  _execute_entity_id_operation (MIA_QR_ID _client) qr_id token
    "DELETE" None None.

Definition qr_create_extension (qr_id : PyStrArg) (data : PyDictArg)
    (token : PyStrArg) : Method Res :=
  _execute_entity_id_operation (MIA_QR_EXTENSIONS _client) qr_id token
    "POST" data None.

Definition qr_cancel_extension (qr_id token : PyStrArg) : Method Res :=
  _execute_entity_id_operation (MIA_QR_ACTIVE_EXTENSION _client) qr_id token
    "DELETE" None None.

Definition qr_extension_status (qr_extension_id : PyStrArg)
    (params : PyDictArg) (token : PyStrArg) : Method Res :=
  _execute_entity_id_operation (MIA_QR_EXTENSION_STATUS _client)
    qr_extension_id token _execute_entity_id_operation_method None params.

Definition transactions_list (params : PyDictArg) (token : PyStrArg)
  : Method Res :=
  _execute_operation (MIA_TRANSACTIONS_LIST _client) None token None
    "GET" params.

Definition test_pay (data : PyDictArg) (token : PyStrArg) : Method Res :=
  _execute_operation (SANDBOX_DEMOPAY_URL _client) data token
    (Some REQUIRED_TEST_PAY_PARAMS) _execute_operation_method None.

Definition payment_details (pay_id token : PyStrArg) : Method Res :=
  _execute_entity_id_operation (MIA_PAYMENTS_ID _client) pay_id token
    _execute_entity_id_operation_method None None.

Definition payment_refund (pay_id : PyStrArg) (data : PyDictArg)
    (token : PyStrArg) : Method Res :=
  _execute_entity_id_operation (MIA_PAYMENTS_REFUND _client) pay_id token
    "POST" data None.

Definition payment_list (params : PyDictArg) (token : PyStrArg) : Method Res :=
  _execute_operation (MIA_PAYMENTS _client) None token None "GET" params.

(** *** The operations as data *)

(** One call of a public method, with its arguments. *)
Inductive Operation :=
| Qr_create (data params : PyDictArg) (token : PyStrArg)
| Qr_status (qr_id : PyStrArg) (params : PyDictArg) (token : PyStrArg)
| Qr_cancel (qr_id token : PyStrArg)
| Qr_create_extension (qr_id : PyStrArg) (data : PyDictArg) (token : PyStrArg)
| Qr_cancel_extension (qr_id token : PyStrArg)
| Qr_extension_status (qr_extension_id : PyStrArg) (params : PyDictArg)
    (token : PyStrArg)
| Transactions_list (params : PyDictArg) (token : PyStrArg)
| Test_pay (data : PyDictArg) (token : PyStrArg)
| Payment_details (pay_id token : PyStrArg)
| Payment_refund (pay_id : PyStrArg) (data : PyDictArg) (token : PyStrArg)
| Payment_list (params : PyDictArg) (token : PyStrArg).

Definition invoke (op : Operation) : Method Res :=
  match op with
  | Qr_create data params token => qr_create data params token
  | Qr_status qr_id params token => qr_status qr_id params token
  | Qr_cancel qr_id token => qr_cancel qr_id token
  | Qr_create_extension qr_id data token => qr_create_extension qr_id data token
  | Qr_cancel_extension qr_id token => qr_cancel_extension qr_id token
  | Qr_extension_status qr_extension_id params token =>
      qr_extension_status qr_extension_id params token
  | Transactions_list params token => transactions_list params token
  | Test_pay data token => test_pay data token
  | Payment_details pay_id token => payment_details pay_id token
  | Payment_refund pay_id data token => payment_refund pay_id data token
  | Payment_list params token => payment_list params token
  end.

(** Which of the two internal routines a public method ends in, and
    with which arguments (read off the body of each method). *)
Inductive Routine :=
| ByPayload (endpoint : string) (data : PyDictArg) (token : PyStrArg)
    (required_params : PyListArg) (method : string) (params : PyDictArg)
| ByEntityId (endpoint : string) (entity_id token : PyStrArg)
    (method : string) (data params : PyDictArg).

Definition routine (op : Operation) : Routine :=
  match op with
  | Qr_create data params token =>
      ByPayload (MIA_QR _client) data token (Some REQUIRED_QR_PARAMS)
        "POST" params
  | Qr_status qr_id params token =>
      ByEntityId (MIA_QR_STATUS _client) qr_id token "GET" None params
  | Qr_cancel qr_id token =>
      ByEntityId (MIA_QR_ID _client) qr_id token "DELETE" None None
  | Qr_create_extension qr_id data token =>
      ByEntityId (MIA_QR_EXTENSIONS _client) qr_id token "POST" data None
  | Qr_cancel_extension qr_id token =>
      ByEntityId (MIA_QR_ACTIVE_EXTENSION _client) qr_id token "DELETE"
        None None
  | Qr_extension_status qr_extension_id params token =>
      ByEntityId (MIA_QR_EXTENSION_STATUS _client) qr_extension_id token
        "GET" None params
  | Transactions_list params token =>
      ByPayload (MIA_TRANSACTIONS_LIST _client) None token None "GET" params
  | Test_pay data token =>
      ByPayload (SANDBOX_DEMOPAY_URL _client) data token
        (Some REQUIRED_TEST_PAY_PARAMS) "POST" None
  | Payment_details pay_id token =>
      ByEntityId (MIA_PAYMENTS_ID _client) pay_id token "GET" None None
  | Payment_refund pay_id data token =>
      ByEntityId (MIA_PAYMENTS_REFUND _client) pay_id token "POST" data None
  | Payment_list params token =>
      ByPayload (MIA_PAYMENTS _client) None token None "GET" params
  end.

Definition run_routine (r : Routine) : Method Res :=
  match r with
  | ByPayload endpoint data token required_params method params =>
      _execute_operation endpoint data token required_params method params
  | ByEntityId endpoint entity_id token method data params =>
      _execute_entity_id_operation endpoint entity_id token method data params
  end.

(** The first validation a routine runs: of the payload, or of the
    identifier. *)
Definition input_validation (r : Routine) : Outcome unit :=
  match r with
  | ByPayload _ data _ required_params _ _ =>
      _validate_params data required_params;; Return tt
  | ByEntityId _ entity_id _ _ _ _ => _validate_id_param entity_id
  end.

Definition routine_token (r : Routine) : PyStrArg :=
  match r with
  | ByPayload _ _ token _ _ _ => token
  | ByEntityId _ _ token _ _ _ => token
  end.

(** The [send_request] call a routine makes once its validations pass. *)
Definition routine_send_args (r : Routine) : SendArgs :=
  match r with
  | ByPayload endpoint data token _ method params =>
      {| method := method; url := endpoint; data := data; params := params;
         token := token; entity_id := None |}
  | ByEntityId endpoint entity_id token method data params =>
      {| method := method; url := endpoint; data := data; params := params;
         token := token; entity_id := entity_id |}
  end.

(** The column "HTTP verb" of the operation table of the specification,
    row by row (written from the table, not from the code). *)
Definition operation_table_verb (op : Operation) : string :=
  match op with
  | Qr_create _ _ _ => "POST"
  | Qr_status _ _ _ => "GET"
  | Qr_cancel _ _ => "DELETE"
  | Qr_create_extension _ _ _ => "POST"
  | Qr_cancel_extension _ _ => "DELETE"
  | Qr_extension_status _ _ _ => "GET"
  | Transactions_list _ _ => "GET"
  | Test_pay _ _ => "POST"
  | Payment_details _ _ => "GET"
  | Payment_refund _ _ _ => "POST"
  | Payment_list _ _ => "GET"
  end.

End Api.

(** ** Observations on outcomes and strings *)

Definition is_return {A} (o : Outcome A) : bool :=
  match o with
  | Return _ => true
  | Raise _ => false
  end.

(** [s] occurs in [msg] as a contiguous substring. *)
Definition contains (msg s : string) : Prop :=
  ∃ before after, msg = before +:+ s +:+ after.

(** A string argument that is [None] or the empty string. *)
Definition missing_or_empty (s : PyStrArg) : Prop :=
  s = None ∨ s = Some "".

(** A dictionary argument that is [None] or the empty dictionary. *)
Definition null_or_empty (d : PyDictArg) : Prop :=
  d = None ∨ d = Some ∅.

(** A field that [data.get] finds absent or mapped to [None]. *)
Definition field_missing (d : gmap string PyVal) (field : string) : Prop :=
  d !! field = None ∨ d !! field = Some PyNone.

(** The first required field, in list order, that [data.get] finds
    missing: the field the loop of [_validate_params] stops at. *)
Definition first_missing (d : gmap string PyVal) (required_params : list string)
  : option string :=
  List.find (λ param, is_None (dict_get d param)) required_params.

(** The seven methods that take an identifier, called on one identifier. *)
Definition identifier_operations (id : PyStrArg) (data params : PyDictArg)
    (token : PyStrArg) : list Operation :=
  [ Qr_status id params token;
    Qr_cancel id token;
    Qr_create_extension id data token;
    Qr_cancel_extension id token;
    Qr_extension_status id params token;
    Payment_details id token;
    Payment_refund id data token ].

(** The [token] argument of a call. *)
Definition operation_token (op : Operation) : PyStrArg :=
  match op with
  | Qr_create _ _ token => token
  | Qr_status _ _ token => token
  | Qr_cancel _ token => token
  | Qr_create_extension _ _ token => token
  | Qr_cancel_extension _ token => token
  | Qr_extension_status _ _ token => token
  | Transactions_list _ token => token
  | Test_pay _ token => token
  | Payment_details _ token => token
  | Payment_refund _ _ token => token
  | Payment_list _ token => token
  end.

(** How deep the chain of [__cause__] of a raised object goes. *)
Fixpoint cause_depth (e : PyExc) : nat :=
  match e with
  | MkExc _ _ None => 0
  | MkExc _ _ (Some c) => S (cause_depth c)
  end.

(** ** A client to run the methods on *)

Module Sample.

(** A raw response: status code and body. *)
Definition Raw : Type := nat * string.

Definition ConnectionError : PyExc :=
  MkExc (ExceptionSubclass "ConnectionError") "connection refused" None.

(** A client whose state counts the requests it was asked to send.
    When [online] it answers every request with status 200 and the
    verb as body, otherwise it fails to connect; a response with
    another status is turned into the domain exception. *)
Definition client (online : bool) : VictoriabankMiaSdk nat Raw string := {|
  MIA_QR := "/api/v1/qr";
  MIA_QR_STATUS := "/api/v1/qr/{qrHeaderUUID}/status";
  MIA_QR_ID := "/api/v1/qr/{qrHeaderUUID}";
  MIA_QR_EXTENSIONS := "/api/v1/qr/{qrHeaderUUID}/extentions";
  MIA_QR_ACTIVE_EXTENSION := "/api/v1/qr/{qrHeaderUUID}/active-extension";
  MIA_QR_EXTENSION_STATUS := "/api/v1/qr-extensions/{qrExtensionUUID}/status";
  MIA_TRANSACTIONS_LIST := "/api/v1/reconciliation/transactions";
  SANDBOX_DEMOPAY_URL := "https://test-ipspj-demopay.victoriabank.md/api/pay";
  MIA_PAYMENTS_ID := "/api/v1/payments/{payId}";
  MIA_PAYMENTS_REFUND := "/api/v1/payments/{payId}/refund";
  MIA_PAYMENTS := "/api/v1/payments";
  send_request := λ args n,
    (if online then Return (200, method args) else Raise ConnectionError,
     S n);
  handle_response := λ raw endpoint n,
    (if fst raw =? 200 then Return (snd raw)
     else Raise (VictoriabankPaymentException "Error response"), n)
|}.

(** A QR payload with both required fields. *)
Definition qr_payload : gmap string PyVal :=
  <["header" := PyDict {["qrType" := PyStr "DYNM"]}]>
    (<["extension" := PyDict {["amount" := PyInt 100]}]> ∅).

(** A payload that lacks [extension]. *)
Definition header_only : gmap string PyVal :=
  {["header" := PyDict ∅]}.

End Sample.

(** ** The arguments of a call, by name *)

(** The [data] argument of a call; [None] for a method without one. *)
Definition operation_data (op : Operation) : PyDictArg :=
  match op with
  | Qr_create data _ _ => data
  | Qr_create_extension _ data _ => data
  | Test_pay data _ => data
  | Payment_refund _ data _ => data
  | Qr_status _ _ _ | Qr_cancel _ _ | Qr_cancel_extension _ _
  | Qr_extension_status _ _ _ | Transactions_list _ _
  | Payment_details _ _ | Payment_list _ _ => None
  end.

(** The [params] argument of a call; [None] for a method without one. *)
Definition operation_params (op : Operation) : PyDictArg :=
  match op with
  | Qr_create _ params _ => params
  | Qr_status _ params _ => params
  | Qr_extension_status _ params _ => params
  | Transactions_list params _ => params
  | Payment_list params _ => params
  | Qr_cancel _ _ | Qr_create_extension _ _ _ | Qr_cancel_extension _ _
  | Test_pay _ _ | Payment_details _ _ | Payment_refund _ _ _ => None
  end.

(** The identifier argument of a call ([qr_id], [qr_extension_id] or
    [pay_id]); [None] for a method without one. *)
Definition operation_entity_id (op : Operation) : PyStrArg :=
  match op with
  | Qr_status qr_id _ _ => qr_id
  | Qr_cancel qr_id _ => qr_id
  | Qr_create_extension qr_id _ _ => qr_id
  | Qr_cancel_extension qr_id _ => qr_id
  | Qr_extension_status qr_extension_id _ _ => qr_extension_id
  | Payment_details pay_id _ => pay_id
  | Payment_refund pay_id _ _ => pay_id
  | Qr_create _ _ _ | Transactions_list _ _ | Test_pay _ _
  | Payment_list _ _ => None
  end.

(** A field that [data.get] finds with a value other than [None]. *)
Definition field_present (d : gmap string PyVal) (field : string) : Prop :=
  ∃ v, d !! field = Some v ∧ v ≠ PyNone.

(** The three messages a rejected call can carry. *)
Definition validation_message (msg : string) : Prop :=
  msg = msg_missing_id
  ∨ msg = msg_access_token
  ∨ ∃ param, param ∈ REQUIRED_QR_PARAMS ++ REQUIRED_TEST_PAY_PARAMS
             ∧ msg = msg_missing_param param.

(** ** Further sample values *)

Module Edge.

(** What the interpreter raises on Ctrl-C; not an [Exception]. *)
Definition KeyboardInterrupt : PyExc :=
  MkExc (BaseExceptionOnly "KeyboardInterrupt") "" None.

(** The sample client, interrupted during every send. *)
Definition interrupted_client : VictoriabankMiaSdk nat Sample.Raw string := {|
  MIA_QR := MIA_QR (Sample.client true);
  MIA_QR_STATUS := MIA_QR_STATUS (Sample.client true);
  MIA_QR_ID := MIA_QR_ID (Sample.client true);
  MIA_QR_EXTENSIONS := MIA_QR_EXTENSIONS (Sample.client true);
  MIA_QR_ACTIVE_EXTENSION := MIA_QR_ACTIVE_EXTENSION (Sample.client true);
  MIA_QR_EXTENSION_STATUS := MIA_QR_EXTENSION_STATUS (Sample.client true);
  MIA_TRANSACTIONS_LIST := MIA_TRANSACTIONS_LIST (Sample.client true);
  SANDBOX_DEMOPAY_URL := SANDBOX_DEMOPAY_URL (Sample.client true);
  MIA_PAYMENTS_ID := MIA_PAYMENTS_ID (Sample.client true);
  MIA_PAYMENTS_REFUND := MIA_PAYMENTS_REFUND (Sample.client true);
  MIA_PAYMENTS := MIA_PAYMENTS (Sample.client true);
  send_request := λ args n, (Raise KeyboardInterrupt, S n);
  handle_response := handle_response (Sample.client true)
|}.

(** A QR payload whose required fields hold falsy values. *)
Definition falsy_payload : gmap string PyVal :=
  <["header" := PyStr ""]> (<["extension" := PyBool false]> ∅).

End Edge.

(** * Properties *)

(** ** The validators *)

Lemma truthy_str_false (s : PyStrArg) :
  truthy_str s = false ↔ missing_or_empty s.
Proof.
  unfold missing_or_empty. destruct s as [[|c s]|]; simpl; split;
    intros H; auto; try discriminate; destruct H; discriminate.
Qed.

Lemma truthy_str_nonempty (s : string) : s ≠ "" → truthy_str (Some s) = true.
Proof. destruct s; [congruence | reflexivity]. Qed.

Lemma validate_access_token_missing (token : PyStrArg) :
  missing_or_empty token →
  _validate_access_token token
  = Raise (VictoriabankPaymentException msg_access_token).
Proof. intros [-> | ->]; reflexivity. Qed.

Lemma validate_access_token_nonempty (tok : string) :
  tok ≠ "" → _validate_access_token (Some tok) = Return tt.
Proof. destruct tok; [congruence | reflexivity]. Qed.

Lemma validate_id_param_missing (entity_id : PyStrArg) :
  missing_or_empty entity_id →
  _validate_id_param entity_id
  = Raise (VictoriabankPaymentException msg_missing_id).
Proof. intros [-> | ->]; reflexivity. Qed.

Lemma validate_id_param_nonempty (id : string) :
  id ≠ "" → _validate_id_param (Some id) = Return tt.
Proof. destruct id; [congruence | reflexivity]. Qed.

Lemma field_missing_is_None (d : gmap string PyVal) (field : string) :
  field_missing d field ↔ is_None (dict_get d field) = true.
Proof.
  unfold field_missing, dict_get. destruct (d !! field) as [[]|]; simpl;
    split; intros H; auto; try discriminate; destruct H; discriminate.
Qed.

Lemma truthy_dict_nonempty (d : gmap string PyVal) :
  d ≠ ∅ ↔ truthy_dict (Some d) = true.
Proof.
  simpl. rewrite negb_true_iff, Nat.eqb_neq. by rewrite map_size_non_empty_iff.
Qed.

Lemma truthy_dict_null_or_empty (data : PyDictArg) :
  null_or_empty data → truthy_dict data = false.
Proof. intros [-> | ->]; reflexivity. Qed.

(** The loop stops at the first missing field, and only there. *)
Lemma required_loop_first_missing (d : gmap string PyVal) (req : list string) :
  required_loop d req
  = match first_missing d req with
    | Some param =>
        Raise (VictoriabankPaymentException (msg_missing_param param))
    | None => Return tt
    end.
Proof.
  unfold first_missing. induction req as [|param rest IH]; simpl; [done|].
  destruct (is_None (dict_get d param)); [done | apply IH].
Qed.

Lemma first_missing_exists (d : gmap string PyVal) (req : list string)
    (field : string) :
  field ∈ req → field_missing d field →
  ∃ g, first_missing d req = Some g ∧ g ∈ req ∧ field_missing d g.
Proof.
  intros Hin Hmiss. apply field_missing_is_None in Hmiss.
  unfold first_missing.
  destruct (List.find _ req) as [g|] eqn:Hfind.
  - apply List.find_some in Hfind as [Hg Hnone]. exists g. split; [done|].
    split; [by apply list_elem_of_In | by apply field_missing_is_None].
  - apply list_elem_of_In in Hin.
    pose proof (List.find_none _ _ Hfind _ Hin) as Hf. simpl in Hf. congruence.
Qed.

Lemma first_missing_here (d : gmap string PyVal) (pre post : list string)
    (field : string) :
  Forall (λ g, ¬ field_missing d g) pre → field_missing d field →
  first_missing d (pre ++ field :: post) = Some field.
Proof.
  intros Hpre Hmiss. apply field_missing_is_None in Hmiss.
  unfold first_missing. induction Hpre as [|g pre Hg _ IH]; simpl.
  - by rewrite Hmiss.
  - destruct (is_None (dict_get d g)) eqn:Eg; [|apply IH].
    exfalso. apply Hg. by apply field_missing_is_None.
Qed.

Lemma validate_params_nonempty (d : gmap string PyVal) (req : list string) :
  d ≠ ∅ →
  _validate_params (Some d) (Some req)
  = match first_missing d req with
    | Some param =>
        Raise (VictoriabankPaymentException (msg_missing_param param))
    | None => Return true
    end.
Proof.
  intros Hd. apply truthy_dict_nonempty in Hd.
  unfold _validate_params. rewrite Hd.
  destruct req as [|param rest]; [reflexivity|].
  change (truthy_list (Some (param :: rest))) with true. cbn [andb].
  rewrite required_loop_first_missing.
  by destruct (first_missing d (param :: rest)).
Qed.

Lemma validate_params_skipped (data : PyDictArg) (required_params : PyListArg) :
  null_or_empty data → _validate_params data required_params = Return true.
Proof.
  intros H. unfold _validate_params.
  by rewrite (truthy_dict_null_or_empty _ H).
Qed.

(** No raised object is its own cause. *)
Lemma with_cause_neq (e ex : PyExc) : with_cause e ex ≠ ex.
Proof.
  intros H. apply (f_equal cause_depth) in H. simpl in H. lia.
Qed.

(** ** The string of [_send_request] *)

Lemma contains_intro (before s after : string) :
  contains (before +:+ s +:+ after) s.
Proof. by exists before, after. Qed.

Lemma string_app_assoc (a b c : string) : (a +:+ b) +:+ c = a +:+ (b +:+ c).
Proof.
  induction a as [|x a IH]; [done|].
  change (String x ((a +:+ b) +:+ c) = String x (a +:+ b +:+ c)).
  by rewrite IH.
Qed.

Lemma msg_http_error_contains_method (method endpoint : string) (ex : PyExc) :
  contains (msg_http_error method endpoint ex) method.
Proof. apply contains_intro. Qed.

Lemma msg_http_error_contains_endpoint (method endpoint : string) (ex : PyExc) :
  contains (msg_http_error method endpoint ex) endpoint.
Proof.
  exists ("HTTP error while sending " +:+ method +:+ " request to endpoint "),
         (": " +:+ exc_str ex).
  unfold msg_http_error. by rewrite !string_app_assoc.
Qed.

(** ** The dispatch routines *)

Section Dispatch.
Context {St Raw Res : Type}.
Variable _client : VictoriabankMiaSdk St Raw Res.

(** What [_send_request] does, case by case on what the client does. *)
Lemma send_request_cases (method endpoint : string) (token : PyStrArg)
    (data params : PyDictArg) (entity_id : PyStrArg) (s : St) :
  let args := {| method := method; url := endpoint; data := data;
                 params := params; token := token; entity_id := entity_id |} in
  _send_request _client method endpoint token data params entity_id s
  = match send_request _client args s with
    | (Return raw, s1) =>
        let '(o, s2) := handle_response _client raw endpoint s1 in
        (o, s2, [EvSend args (Return raw); EvHandle raw endpoint o])
    | (Raise ex, s1) =>
        (Raise (if isinstance_Exception ex
                then with_cause (VictoriabankPaymentException
                                   (msg_http_error method endpoint ex)) ex
                else ex),
         s1, [EvSend args (Raise ex)])
    end.
Proof.
  intros args. unfold _send_request, mbind, M_bind, try_except_Exception,
    call_send_request, call_handle_response, raise, lift. fold args.
  destruct (send_request _client args s) as [[raw|ex] s1]; simpl.
  - by destruct (handle_response _client raw endpoint s1) as [o s2].
  - by destruct (isinstance_Exception ex).
Qed.

Lemma invoke_routine (op : Operation) :
  invoke _client op = run_routine _client (routine _client op).
Proof. by destruct op. Qed.

(** A failed first validation ends the call before anything else. *)
Lemma run_routine_input_raise (r : Routine) (e : PyExc) (s : St) :
  input_validation r = Raise e →
  run_routine _client r s = (Raise e, s, []).
Proof.
  destruct r as [ep d tok req m p | ep id tok m d p]; simpl;
    unfold _execute_operation, _execute_entity_id_operation,
      mbind, M_bind, lift; intros H.
  - destruct (_validate_params d req); [discriminate | by inversion H].
  - by rewrite H.
Qed.

Lemma run_routine_token_raise (r : Routine) (e : PyExc) (s : St) :
  input_validation r = Return tt →
  _validate_access_token (routine_token r) = Raise e →
  run_routine _client r s = (Raise e, s, []).
Proof.
  destruct r as [ep d tok req m p | ep id tok m d p]; simpl;
    unfold _execute_operation, _execute_entity_id_operation,
      mbind, M_bind, lift; intros Hin Htok.
  - destruct (_validate_params d req); [|discriminate]. by rewrite Htok.
  - by rewrite Hin, Htok.
Qed.

Lemma run_routine_dispatch (r : Routine) (s : St) :
  input_validation r = Return tt →
  _validate_access_token (routine_token r) = Return tt →
  run_routine _client r s
  = let a := routine_send_args r in
    _send_request _client (method a) (url a) (token a) (data a) (params a)
      (entity_id a) s.
Proof.
  destruct r as [ep d tok req m p | ep id tok m d p]; simpl;
    unfold _execute_operation, _execute_entity_id_operation; intros Hin Htok.
  - unfold mbind at 1 2. unfold M_bind, lift.
    destruct (_validate_params d req); [|discriminate]. rewrite Htok.
    by destruct (_send_request _ _ _ _ _ _ _ _) as [[o s2] t].
  - unfold mbind at 1 2. unfold M_bind, lift. rewrite Hin, Htok.
    by destruct (_send_request _ _ _ _ _ _ _ _) as [[o s2] t].
Qed.

(** Once both validations pass, the client is asked to send exactly
    once, and [handle_response] decides the outcome when it does. *)
Lemma run_routine_sent (r : Routine) (s : St) :
  input_validation r = Return tt →
  _validate_access_token (routine_token r) = Return tt →
  ∃ out s' t result,
    run_routine _client r s = (out, s', t)
    ∧ sends t = [routine_send_args r]
    ∧ head t = Some (EvSend (routine_send_args r) result)
    ∧ result = (send_request _client (routine_send_args r) s).1.
Proof.
  intros Hin Htok. rewrite (run_routine_dispatch r s Hin Htok). cbv zeta.
  rewrite send_request_cases.
  assert (Hargs : {| method := method (routine_send_args r);
                     url := url (routine_send_args r);
                     data := data (routine_send_args r);
                     params := params (routine_send_args r);
                     token := token (routine_send_args r);
                     entity_id := entity_id (routine_send_args r) |}
                  = routine_send_args r) by by destruct (routine_send_args r).
  cbv zeta. rewrite Hargs.
  destruct (send_request _client (routine_send_args r) s) as [[raw|ex] s1].
  - destruct (handle_response _client raw _ s1) as [o s2].
    by eexists _, _, _, _.
  - by eexists _, _, _, _.
Qed.

(** Once both validations pass, the call is what the client makes of
    the request: its [send_request] and, when that returns, its
    [handle_response]. *)
Lemma run_routine_through_client (r : Routine) (s : St) :
  input_validation r = Return tt →
  _validate_access_token (routine_token r) = Return tt →
  run_routine _client r s
  = match send_request _client (routine_send_args r) s with
    | (Return raw, s1) =>
        let '(o, s2) :=
          handle_response _client raw (url (routine_send_args r)) s1 in
        (o, s2,
         [EvSend (routine_send_args r) (Return raw);
          EvHandle raw (url (routine_send_args r)) o])
    | (Raise ex, s1) =>
        (Raise (if isinstance_Exception ex
                then with_cause
                       (VictoriabankPaymentException
                          (msg_http_error (method (routine_send_args r))
                             (url (routine_send_args r)) ex)) ex
                else ex),
         s1, [EvSend (routine_send_args r) (Raise ex)])
    end.
Proof.
  intros Hin Htok. rewrite (run_routine_dispatch r s Hin Htok). cbv zeta.
  rewrite send_request_cases. cbv zeta.
  by destruct (routine_send_args r).
Qed.

(** Such a call asks the client to send exactly once. *)
Lemma through_client_sends (a : SendArgs) (s s' : St) (out : Outcome Res)
    (t : list (Event Raw Res)) :
  (out, s', t)
  = match send_request _client a s with
    | (Return raw, s1) =>
        let '(o, s2) := handle_response _client raw (url a) s1 in
        (o, s2, [EvSend a (Return raw); EvHandle raw (url a) o])
    | (Raise ex, s1) =>
        (Raise (if isinstance_Exception ex
                then with_cause
                       (VictoriabankPaymentException
                          (msg_http_error (method a) (url a) ex)) ex
                else ex),
         s1, [EvSend a (Raise ex)])
    end →
  sends t = [a].
Proof.
  destruct (send_request _client a s) as [[raw|ex] s1].
  - destruct (handle_response _client raw (url a) s1) as [o s2].
    intros H. by inversion H.
  - intros H. by inversion H.
Qed.

End Dispatch.

(** ** The operations *)

Section Operations.
Context {St Raw Res : Type}.
Variable _client : VictoriabankMiaSdk St Raw Res.

Lemma routine_token_operation_token (op : Operation) :
  routine_token (routine _client op) = operation_token op.
Proof. by destruct op. Qed.

Lemma routine_method_table (op : Operation) :
  method (routine_send_args (routine _client op)) = operation_table_verb op.
Proof. by destruct op. Qed.

(** The methods that pass a list of required fields are [qr_create]
    and [test_pay], with their two class constants. *)
Lemma routine_required_params (op : Operation) endpoint data token req
    method params :
  routine _client op = ByPayload endpoint data token (Some req) method params →
  (op = Qr_create data params token ∧ req = REQUIRED_QR_PARAMS)
  ∨ (op = Test_pay data token ∧ req = REQUIRED_TEST_PAY_PARAMS).
Proof. destruct op; simpl; intros H; inversion H; subst; auto. Qed.

(** The methods that end in [_execute_entity_id_operation] are the
    seven of [identifier_operations]. *)
Lemma routine_identifier_operations (id : PyStrArg) (data params : PyDictArg)
    (token : PyStrArg) (op : Operation) :
  op ∈ identifier_operations id data params token →
  ∃ endpoint method d p,
    routine _client op = ByEntityId endpoint id token method d p.
Proof.
  unfold identifier_operations. rewrite !elem_of_cons, elem_of_nil.
  intros H. repeat destruct H as [-> | H]; [..|done];
    by eexists _, _, _, _.
Qed.

(** A missing field of a non-empty payload stops the call at the first
    validation, whatever the token. *)
Lemma missing_field_raises (op : Operation) endpoint data token req
    method params field (s : St) :
  routine _client op
    = ByPayload endpoint (Some data) token (Some req) method params →
  data ≠ ∅ → field ∈ req → field_missing data field →
  ∃ g, first_missing data req = Some g ∧ field_missing data g
       ∧ invoke _client op s
         = (Raise (VictoriabankPaymentException (msg_missing_param g)), s, []).
Proof.
  intros Hr Hd Hin Hmiss.
  destruct (first_missing_exists data req field Hin Hmiss) as (g & Hg & _ & Hgm).
  exists g. split; [done|]. split; [done|].
  rewrite invoke_routine, Hr. apply run_routine_input_raise. simpl.
  by rewrite (validate_params_nonempty data req Hd), Hg.
Qed.

(** A missing identifier stops the call at the first validation,
    whatever the token. *)
Lemma missing_identifier_raises (op : Operation) endpoint id token method
    data params (s : St) :
  routine _client op = ByEntityId endpoint id token method data params →
  missing_or_empty id →
  invoke _client op s
  = (Raise (VictoriabankPaymentException msg_missing_id), s, []).
Proof.
  intros Hr Hid. rewrite invoke_routine, Hr.
  apply run_routine_input_raise. simpl.
  by apply validate_id_param_missing.
Qed.

(** An object raised by [send_request] that is not an instance of
    [Exception] passes through [_send_request] as it is. *)
Lemma send_request_base_exception_propagates method endpoint token data
    params entity_id (s s1 : St) (ex : PyExc) :
  send_request _client
    {| method := method; url := endpoint; data := data; params := params;
       token := token; entity_id := entity_id |} s = (Raise ex, s1) →
  isinstance_Exception ex = false →
  (_send_request _client method endpoint token data params entity_id s).1.1
  = Raise ex.
Proof.
  intros Hsend Hbase. rewrite send_request_cases. cbv zeta.
  by rewrite Hsend, Hbase.
Qed.

(** C1, as the code has it: for every operation that passes a list of
    required fields ([qr_create] with [header] and [extension],
    [test_pay] with [qrHeaderUUID]), a call with a non-empty payload
    in which a required field is missing (absent or mapped to [None])
    raises the domain exception "Missing required parameter: g", where
    [g] is the first required field, in list order, that is missing
    (so [g] is the given field when no required field before it is
    missing), and the client is never asked to send. *)
Theorem C1_missing_field_nonempty_payload
    (op : Operation) (endpoint : string) (data : gmap string PyVal)
    (token : PyStrArg) (req : list string) (method : string)
    (params : PyDictArg) (field : string) (s : St) :
  routine _client op
    = ByPayload endpoint (Some data) token (Some req) method params →
  data ≠ ∅ →
  field ∈ req →
  field_missing data field →
  ∃ g,
    first_missing data req = Some g
    ∧ field_missing data g
    ∧ invoke _client op s
      = (Raise (VictoriabankPaymentException (msg_missing_param g)), s, [])
    ∧ (∀ pre post,
         req = pre ++ field :: post →
         Forall (λ f, ¬ field_missing data f) pre →
         g = field).
Proof.
  intros Hr Hd Hin Hmiss.
  destruct (missing_field_raises op _ _ _ _ _ _ field s Hr Hd Hin Hmiss)
    as (g & Hg & Hgm & Hrun).
  exists g. repeat split; try done.
  intros pre post -> Hpre.
  rewrite (first_missing_here data pre post field Hpre Hmiss) in Hg.
  by inversion Hg.
Qed.

(** C2: for every payload with non-null values under [header] and
    [extension] and every non-empty token, [qr_create] asks the client
    to send exactly once, with method POST, the endpoint [MIA_QR],
    that payload as [data], the given [params] and that token, and no
    identifier; and when the client returns a raw response, the
    outcome of [qr_create] is exactly the outcome of
    [handle_response] on that response and that endpoint. *)
Theorem C2_qr_create_dispatch
    (payload : gmap string PyVal) (header extension : PyVal)
    (params : PyDictArg) (tok : string) (s : St) :
  payload !! "header" = Some header → header ≠ PyNone →
  payload !! "extension" = Some extension → extension ≠ PyNone →
  tok ≠ "" →
  ∃ args out s' t,
    args = {| method := "POST"; url := MIA_QR _client;
              data := Some payload; params := params;
              token := Some tok; entity_id := None |}
    ∧ qr_create _client (Some payload) params (Some tok) s = (out, s', t)
    ∧ sends t = [args]
    ∧ (∀ raw s1,
         send_request _client args s = (Return raw, s1) →
         handle_response _client raw (MIA_QR _client) s1 = (out, s')
         ∧ t = [EvSend args (Return raw);
                EvHandle raw (MIA_QR _client) out]).
Proof.
  intros Hh Hhn He Hen Htok.
  set (op := Qr_create (Some payload) params (Some tok)).
  assert (Hin : input_validation (routine _client op) = Return tt).
  { simpl. rewrite validate_params_nonempty.
    - unfold first_missing, REQUIRED_QR_PARAMS, dict_get. simpl.
      rewrite Hh, He. simpl.
      by destruct header; [congruence|..]; destruct extension; [congruence|..].
    - intros ->. by rewrite lookup_empty in Hh. }
  assert (Ht : _validate_access_token (routine_token (routine _client op))
               = Return tt) by by apply validate_access_token_nonempty.
  change (qr_create _client (Some payload) params (Some tok))
    with (run_routine _client (routine _client op)).
  rewrite (run_routine_dispatch _client _ s Hin Ht). cbv zeta.
  rewrite send_request_cases. cbv zeta. simpl.
  eexists. destruct (send_request _client _ s) as [[raw|ex] s1] eqn:Hsend.
  - destruct (handle_response _client raw (MIA_QR _client) s1) as [o s2] eqn:Hh'.
    eexists _, _, _. split; [reflexivity|]. split; [reflexivity|].
    split; [reflexivity|].
    intros raw' s1' Heq. rewrite Hsend in Heq. inversion Heq; subst.
    by rewrite Hh'.
  - eexists _, _, _. split; [reflexivity|]. split; [reflexivity|].
    split; [reflexivity|].
    intros raw' s1' Heq. rewrite Hsend in Heq. discriminate.
Qed.

(** C3: for every operation whose validations pass, so that the
    request is dispatched, when the client's [send_request] raises an
    exception (an instance of [Exception], what [except Exception]
    catches), the caller receives the domain exception
    [VictoriabankPaymentException] whose message contains the HTTP verb
    of the operation and the endpoint of the request and whose cause is
    the exception the client raised; the client's exception itself is
    not what the caller receives, the client is left in the state the
    send left it in, and [handle_response] is not called. *)
Theorem C3_transport_exception_wrapped
    (op : Operation) (tok : string) (s s1 : St) (ex : PyExc) :
  input_validation (routine _client op) = Return tt →
  operation_token op = Some tok →
  tok ≠ "" →
  send_request _client (routine_send_args (routine _client op)) s
    = (Raise ex, s1) →
  isinstance_Exception ex = true →
  ∃ msg,
    invoke _client op s
    = (Raise (MkExc VictoriabankPaymentExceptionClass msg (Some ex)), s1,
       [EvSend (routine_send_args (routine _client op)) (Raise ex)])
    ∧ contains msg (operation_table_verb op)
    ∧ contains msg (url (routine_send_args (routine _client op)))
    ∧ method (routine_send_args (routine _client op))
      = operation_table_verb op
    ∧ MkExc VictoriabankPaymentExceptionClass msg (Some ex) ≠ ex.
Proof.
  intros Hin Htok Hne Hsend Hexc.
  assert (Ht : _validate_access_token (routine_token (routine _client op))
               = Return tt).
  { rewrite routine_token_operation_token, Htok.
    by apply validate_access_token_nonempty. }
  rewrite invoke_routine, (run_routine_through_client _client _ s Hin Ht).
  rewrite Hsend, Hexc.
  exists (msg_http_error (method (routine_send_args (routine _client op)))
            (url (routine_send_args (routine _client op))) ex).
  split; [reflexivity|].
  split; [rewrite <- routine_method_table;
          apply msg_http_error_contains_method|].
  split; [apply msg_http_error_contains_endpoint|].
  split; [apply routine_method_table|].
  apply (with_cause_neq
           (VictoriabankPaymentException
              (msg_http_error (method (routine_send_args (routine _client op)))
                 (url (routine_send_args (routine _client op))) ex)) ex).
Qed.

(** C4: for every operation, when the token is [None] or the empty
    string and the payload or identifier passes its own validation,
    the call raises the domain exception "Access token is not valid.
    It should be a non-empty string." and the client is never asked to
    send. *)
Theorem C4_token_error_before_send (op : Operation) (s : St) :
  missing_or_empty (operation_token op) →
  input_validation (routine _client op) = Return tt →
  invoke _client op s
  = (Raise (VictoriabankPaymentException msg_access_token), s, []).
Proof.
  intros Htok Hin. rewrite invoke_routine.
  apply run_routine_token_raise; [done|].
  rewrite routine_token_operation_token.
  by apply validate_access_token_missing.
Qed.

(** C5: for each of the seven identifier-based operations, a call with
    an identifier that is [None] or the empty string raises the domain
    exception "Missing ID." and the client is never asked to send. *)
Theorem C5_identifier_error_before_send
    (id : PyStrArg) (data params : PyDictArg) (token : PyStrArg)
    (op : Operation) (s : St) :
  missing_or_empty id →
  op ∈ identifier_operations id data params token →
  invoke _client op s
  = (Raise (VictoriabankPaymentException msg_missing_id), s, []).
Proof.
  intros Hid Hop.
  destruct (routine_identifier_operations id data params token op Hop)
    as (endpoint & method & d & p & Hr).
  by apply (missing_identifier_raises op endpoint id token method d p).
Qed.

(** C6: identifier validation asks for a non-empty string and nothing
    more: for every non-empty identifier, whatever its length,
    [_validate_id_param] returns, and each of the seven
    identifier-based operations, given a non-empty token, goes on to
    the dispatch: the client's [send_request] is applied once, to a
    request carrying that identifier and that token, and the outcome
    and the final state of the call are what the client makes of it
    (its [handle_response] on the response when the send returns). *)
Theorem C6_identifier_only_nonempty
    (id : string) (data params : PyDictArg) (tok : string)
    (op : Operation) (s : St) :
  id ≠ "" →
  tok ≠ "" →
  op ∈ identifier_operations (Some id) data params (Some tok) →
  _validate_id_param (Some id) = Return tt
  ∧ ∃ out s' t args,
      invoke _client op s = (out, s', t)
      ∧ args = routine_send_args (routine _client op)
      ∧ sends t = [args]
      ∧ entity_id args = Some id
      ∧ token args = Some tok
    ∧ (out, s', t)
        = match send_request _client args s with
          | (Return raw, s1) =>
              let '(o, s2) := handle_response _client raw (url args) s1 in
              (o, s2, [EvSend args (Return raw); EvHandle raw (url args) o])
          | (Raise ex, s1) =>
              (Raise (if isinstance_Exception ex
                      then with_cause
                             (VictoriabankPaymentException
                                (msg_http_error (method args) (url args) ex)) ex
                      else ex),
               s1, [EvSend args (Raise ex)])
          end.
Proof.
  intros Hid Htok Hop. split; [by apply validate_id_param_nonempty|].
  destruct (routine_identifier_operations _ _ _ _ op Hop)
    as (endpoint & method & d & p & Hr).
  assert (Hin : input_validation (routine _client op) = Return tt)
    by (rewrite Hr; by apply validate_id_param_nonempty).
  assert (Ht : _validate_access_token (routine_token (routine _client op))
               = Return tt)
    by (rewrite Hr; by apply validate_access_token_nonempty).
  pose proof (run_routine_through_client _client _ s Hin Ht) as Hrun.
  rewrite <- invoke_routine in Hrun.
  destruct (invoke _client op s) as [[out s'] t].
  exists out, s', t, (routine_send_args (routine _client op)).
  split; [done|]. split; [done|].
  split; [exact (through_client_sends _client _ s s' out t Hrun)|].
  split; [by rewrite Hr|]. split; [by rewrite Hr | exact Hrun].
Qed.

(** C7: every operation whose payload or identifier and whose token
    are valid applies the client's [send_request] once, to a request
    with the HTTP verb of its row in the operation table; [qr_cancel]
    sends DELETE to the endpoint [MIA_QR_ID] and [payment_refund] sends
    POST to the endpoint [MIA_PAYMENTS_REFUND], each with the given
    identifier and token; the outcome and the final state of the call
    are what the client makes of that request. *)
Theorem C7_operation_table_verbs (op : Operation) (tok : string) (s : St) :
  input_validation (routine _client op) = Return tt →
  operation_token op = Some tok →
  tok ≠ "" →
  ∃ out s' t args,
    invoke _client op s = (out, s', t)
    ∧ args = routine_send_args (routine _client op)
    ∧ sends t = [args]
    ∧ method args = operation_table_verb op
    ∧ match op with
      | Qr_cancel qr_id token =>
          args = {| method := "DELETE"; url := MIA_QR_ID _client;
                    data := None; params := None;
                    token := token; entity_id := qr_id |}
      | Payment_refund pay_id data token =>
          args = {| method := "POST"; url := MIA_PAYMENTS_REFUND _client;
                    data := data; params := None;
                    token := token; entity_id := pay_id |}
      | _ => True
      end
    ∧ (out, s', t)
      = match send_request _client args s with
        | (Return raw, s1) =>
            let '(o, s2) := handle_response _client raw (url args) s1 in
            (o, s2, [EvSend args (Return raw); EvHandle raw (url args) o])
        | (Raise ex, s1) =>
            (Raise (if isinstance_Exception ex
                    then with_cause
                           (VictoriabankPaymentException
                              (msg_http_error (method args) (url args) ex)) ex
                    else ex),
             s1, [EvSend args (Raise ex)])
        end.
Proof.
  intros Hin Htok Hne.
  assert (Ht : _validate_access_token (routine_token (routine _client op))
               = Return tt).
  { rewrite routine_token_operation_token, Htok.
    by apply validate_access_token_nonempty. }
  pose proof (run_routine_through_client _client _ s Hin Ht) as Hrun.
  rewrite <- invoke_routine in Hrun.
  destruct (invoke _client op s) as [[out s'] t].
  exists out, s', t, (routine_send_args (routine _client op)).
  split; [done|]. split; [done|].
  split; [exact (through_client_sends _client _ s s' out t Hrun)|].
  split; [apply routine_method_table|]. split; [by destruct op | exact Hrun].
Qed.

(** C8: for every operation that passes a list of required fields, a
    payload that is [None] or the empty dictionary skips the
    required-field check: [_validate_params] returns without raising,
    and, given a non-empty token, the client's [send_request] is
    applied once, to a request with that payload as [data]; the outcome
    and the final state of the call are what the client makes of that
    request. *)
Theorem C8_empty_payload_skips_check
    (op : Operation) (endpoint : string) (data : PyDictArg) (tok : string)
    (req : list string) (verb : string) (params : PyDictArg) (s : St) :
  routine _client op
    = ByPayload endpoint data (Some tok) (Some req) verb params →
  null_or_empty data →
  tok ≠ "" →
  _validate_params data (Some req) = Return true
  ∧ ∃ out s' t args,
      invoke _client op s = (out, s', t)
      ∧ args = {| method := verb; url := endpoint; data := data;
                  params := params; token := Some tok;
                  entity_id := None |}
      ∧ sends t = [args]
    ∧ (out, s', t)
        = match send_request _client args s with
          | (Return raw, s1) =>
              let '(o, s2) := handle_response _client raw (url args) s1 in
              (o, s2, [EvSend args (Return raw); EvHandle raw (url args) o])
          | (Raise ex, s1) =>
              (Raise (if isinstance_Exception ex
                      then with_cause
                             (VictoriabankPaymentException
                                (msg_http_error (method args) (url args) ex)) ex
                      else ex),
               s1, [EvSend args (Raise ex)])
          end.
Proof.
  intros Hr Hdata Htok.
  pose proof (validate_params_skipped data (Some req) Hdata) as Hskip.
  split; [done|].
  assert (Hin : input_validation (routine _client op) = Return tt)
    by (rewrite Hr; simpl; by rewrite Hskip).
  assert (Ht : _validate_access_token (routine_token (routine _client op))
               = Return tt)
    by (rewrite Hr; by apply validate_access_token_nonempty).
  pose proof (run_routine_through_client _client _ s Hin Ht) as Hrun.
  rewrite <- invoke_routine in Hrun. rewrite Hr in Hrun. simpl in Hrun.
  destruct (invoke _client op s) as [[out s'] t].
  eexists out, s', t, _.
  split; [done|]. split; [reflexivity|].
  split; [exact (through_client_sends _client _ s s' out t Hrun) | exact Hrun].
Qed.

(** C9, as the code has it: the payload or the identifier is validated
    before the token.  For every operation that passes a list of
    required fields, a call with a non-empty payload in which a
    required field is missing and with a token that is [None] or empty
    raises the missing-field error (for the first missing field); for
    every identifier-based operation, a call whose identifier and
    token are both [None] or empty raises the identifier error. *)
Theorem C9_validation_order :
  (∀ (op : Operation) endpoint (data : gmap string PyVal) token
      (req : list string) method params field (s : St),
      routine _client op
        = ByPayload endpoint (Some data) token (Some req) method params →
      data ≠ ∅ → field ∈ req → field_missing data field →
      missing_or_empty token →
      ∃ g, first_missing data req = Some g
           ∧ invoke _client op s
             = (Raise (VictoriabankPaymentException (msg_missing_param g)),
                s, []))
  ∧ (∀ (id : PyStrArg) (data params : PyDictArg) (token : PyStrArg)
        (op : Operation) (s : St),
        op ∈ identifier_operations id data params token →
        missing_or_empty id →
        missing_or_empty token →
        invoke _client op s
        = (Raise (VictoriabankPaymentException msg_missing_id), s, [])).
Proof.
  split.
  - intros op endpoint data token req method params field s Hr Hd Hin Hmiss _.
    destruct (missing_field_raises op _ _ _ _ _ _ field s Hr Hd Hin Hmiss)
      as (g & Hg & _ & Hrun).
    by exists g.
  - intros id data params token op s Hop Hid _.
    destruct (routine_identifier_operations id data params token op Hop)
      as (endpoint & method & d & p & Hr).
    by apply (missing_identifier_raises op endpoint id token method d p).
Qed.

End Operations.

(** C10: in [_validate_id_param] the second branch, with the message
    "Invalid ID parameter. Should be string of 36 characters.", is never
    taken: for [None] and for every string, validation raises
    "Missing ID." when the value is [None] or empty and returns
    otherwise. *)
Theorem C10_invalid_id_branch_unreachable (entity_id : PyStrArg) :
  _validate_id_param entity_id
  = (if truthy_str entity_id then Return tt
     else Raise (VictoriabankPaymentException msg_missing_id))
  ∧ (truthy_str entity_id = false ↔ missing_or_empty entity_id)
  ∧ _validate_id_param entity_id
    ≠ Raise (VictoriabankPaymentException msg_invalid_id).
Proof.
  split; [|split].
  - by destruct entity_id as [[|c id]|].
  - apply truthy_str_false.
  - by destruct entity_id as [[|c id]|].
Qed.

(** * The theorems at work on the sample client *)

(** [qr_create] with a payload that lacks [extension]. *)
Lemma C1_witness :
  Sample.header_only ≠ ∅
  ∧ "extension" ∈ REQUIRED_QR_PARAMS
  ∧ field_missing Sample.header_only "extension"
  ∧ invoke (Sample.client true)
      (Qr_create (Some Sample.header_only) None (Some "token")) 0
    = (Raise (VictoriabankPaymentException
                "Missing required parameter: extension"), 0, []).
Proof.
  assert (H1 : Sample.header_only ≠ ∅)
    by (apply truthy_dict_nonempty; reflexivity).
  assert (H2 : "extension" ∈ REQUIRED_QR_PARAMS) by repeat constructor.
  assert (H3 : field_missing Sample.header_only "extension")
    by (left; reflexivity).
  split; [exact H1|]. split; [exact H2|]. split; [exact H3|].
  destruct (C1_missing_field_nonempty_payload (Sample.client true)
              (Qr_create (Some Sample.header_only) None (Some "token"))
              _ _ _ _ _ _ "extension" 0 eq_refl H1 H2 H3)
    as (g & Hg & _ & Hrun & _).
  vm_compute in Hg. injection Hg as <-. exact Hrun.
Defined.

(** [qr_create] with an empty payload: [header] is missing, and yet the
    request is sent and the call returns. *)
Lemma C1_counterexample_empty_payload :
  let call := invoke (Sample.client true)
                (Qr_create (Some ∅) None (Some "token")) 0 in
  "header" ∈ REQUIRED_QR_PARAMS
  ∧ field_missing (∅ : gmap string PyVal) "header"
  ∧ call.1.1 = Return "POST"
  ∧ sends call.2
    = [{| method := "POST"; url := "/api/v1/qr"; data := Some ∅;
          params := None; token := Some "token"; entity_id := None |}]
  ∧ ¬ ∃ field s,
        call = (Raise (VictoriabankPaymentException (msg_missing_param field)),
                s, []).
Proof.
  cbv zeta. split; [repeat constructor|]. split; [by left|].
  split; [reflexivity|]. split; [reflexivity|].
  intros (field & s & H). vm_compute in H. discriminate H.
Qed.

(** [qr_create] with both required fields. *)
Lemma C2_witness :
  Sample.qr_payload !! "header" = Some (PyDict {["qrType" := PyStr "DYNM"]})
  ∧ PyDict {["qrType" := PyStr "DYNM"]} ≠ PyNone
  ∧ Sample.qr_payload !! "extension" = Some (PyDict {["amount" := PyInt 100]})
  ∧ PyDict {["amount" := PyInt 100]} ≠ PyNone
  ∧ "token" ≠ ""
  ∧ ∃ out s' t,
      qr_create (Sample.client true) (Some Sample.qr_payload) None
        (Some "token") 0 = (out, s', t)
      ∧ sends t
        = [{| method := "POST"; url := "/api/v1/qr";
              data := Some Sample.qr_payload; params := None;
              token := Some "token"; entity_id := None |}]
      ∧ handle_response (Sample.client true) (200, "POST") "/api/v1/qr" 1
        = (out, s').
Proof.
  assert (H1 : Sample.qr_payload !! "header"
               = Some (PyDict {["qrType" := PyStr "DYNM"]})) by reflexivity.
  assert (H2 : PyDict {["qrType" := PyStr "DYNM"]} ≠ PyNone) by discriminate.
  assert (H3 : Sample.qr_payload !! "extension"
               = Some (PyDict {["amount" := PyInt 100]})) by reflexivity.
  assert (H4 : PyDict {["amount" := PyInt 100]} ≠ PyNone) by discriminate.
  assert (H5 : "token" ≠ "") by discriminate.
  repeat (split; [assumption|]).
  destruct (C2_qr_create_dispatch (Sample.client true) Sample.qr_payload
              _ _ None "token" 0 H1 H2 H3 H4 H5)
    as (args & out & s' & t & -> & Hrun & Hsends & Hhandle).
  exists out, s', t. split; [exact Hrun|]. split; [exact Hsends|].
  exact (proj1 (Hhandle (200, "POST") 1 eq_refl)).
Defined.

(** [qr_cancel] on a client that cannot connect. *)
Lemma C3_witness :
  input_validation
    (routine (Sample.client false) (Qr_cancel (Some "abc") (Some "token")))
    = Return tt
  ∧ operation_token (Qr_cancel (Some "abc") (Some "token")) = Some "token"
  ∧ "token" ≠ ""
  ∧ send_request (Sample.client false)
      (routine_send_args
         (routine (Sample.client false)
            (Qr_cancel (Some "abc") (Some "token")))) 0
    = (Raise Sample.ConnectionError, 1)
  ∧ isinstance_Exception Sample.ConnectionError = true
  ∧ ∃ msg,
      invoke (Sample.client false) (Qr_cancel (Some "abc") (Some "token")) 0
      = (Raise (MkExc VictoriabankPaymentExceptionClass msg
                  (Some Sample.ConnectionError)), 1,
         [EvSend {| method := "DELETE"; url := "/api/v1/qr/{qrHeaderUUID}";
                    data := None; params := None; token := Some "token";
                    entity_id := Some "abc" |}
            (Raise Sample.ConnectionError)])
      ∧ contains msg "DELETE"
      ∧ contains msg "/api/v1/qr/{qrHeaderUUID}"
      ∧ MkExc VictoriabankPaymentExceptionClass msg
          (Some Sample.ConnectionError) ≠ Sample.ConnectionError.
Proof.
  assert (H3 : "token" ≠ "") by discriminate.
  split; [reflexivity|]. split; [reflexivity|]. split; [exact H3|].
  split; [reflexivity|]. split; [reflexivity|].
  destruct (C3_transport_exception_wrapped (Sample.client false)
              (Qr_cancel (Some "abc") (Some "token")) "token" 0 1
              Sample.ConnectionError eq_refl eq_refl H3 eq_refl eq_refl)
    as (msg & Hrun & Hm & Hu & _ & Hne).
  exists msg. split; [exact Hrun|]. split; [exact Hm|]. split; [exact Hu|].
  exact Hne.
Defined.

(** [qr_cancel] with a valid identifier and an empty token. *)
Lemma C4_witness :
  missing_or_empty (operation_token (Qr_cancel (Some "abc") (Some "")))
  ∧ input_validation
      (routine (Sample.client true) (Qr_cancel (Some "abc") (Some "")))
    = Return tt
  ∧ invoke (Sample.client true) (Qr_cancel (Some "abc") (Some "")) 0
    = (Raise (VictoriabankPaymentException
                "Access token is not valid. It should be a non-empty string."),
       0, []).
Proof.
  assert (H1 : missing_or_empty
                 (operation_token (Qr_cancel (Some "abc") (Some ""))))
    by (right; reflexivity).
  split; [exact H1|]. split; [reflexivity|].
  exact (C4_token_error_before_send (Sample.client true)
           (Qr_cancel (Some "abc") (Some "")) 0 H1 eq_refl).
Defined.

(** [payment_details] without an identifier. *)
Lemma C5_witness :
  missing_or_empty None
  ∧ Payment_details None (Some "token")
    ∈ identifier_operations None None None (Some "token")
  ∧ invoke (Sample.client true) (Payment_details None (Some "token")) 0
    = (Raise (VictoriabankPaymentException "Missing ID."), 0, []).
Proof.
  assert (H1 : missing_or_empty None) by (left; reflexivity).
  assert (H2 : Payment_details None (Some "token")
               ∈ identifier_operations None None None (Some "token"))
    by repeat constructor.
  split; [exact H1|]. split; [exact H2|].
  exact (C5_identifier_error_before_send (Sample.client true)
           None None None (Some "token") _ 0 H1 H2).
Defined.

(** [qr_status] with an identifier of three characters. *)
Lemma C6_witness :
  "abc" ≠ ""
  ∧ "token" ≠ ""
  ∧ Qr_status (Some "abc") None (Some "token")
    ∈ identifier_operations (Some "abc") None None (Some "token")
  ∧ _validate_id_param (Some "abc") = Return tt
  ∧ invoke (Sample.client true)
      (Qr_status (Some "abc") None (Some "token")) 0
    = (Return "GET", 1,
       [EvSend {| method := "GET"; url := "/api/v1/qr/{qrHeaderUUID}/status";
                  data := None; params := None; token := Some "token";
                  entity_id := Some "abc" |} (Return (200, "GET"));
        EvHandle (200, "GET") "/api/v1/qr/{qrHeaderUUID}/status"
          (Return "GET")]).
Proof.
  assert (H1 : "abc" ≠ "") by discriminate.
  assert (H2 : "token" ≠ "") by discriminate.
  assert (H3 : Qr_status (Some "abc") None (Some "token")
               ∈ identifier_operations (Some "abc") None None (Some "token"))
    by repeat constructor.
  split; [exact H1|]. split; [exact H2|]. split; [exact H3|].
  destruct (C6_identifier_only_nonempty (Sample.client true)
              "abc" None None "token" _ 0 H1 H2 H3)
    as (Hv & out & s' & t & args & Hrun & -> & _ & _ & _ & Htie).
  split; [exact Hv|]. rewrite Hrun, Htie. reflexivity.
Defined.

(** [payment_refund] with a valid identifier and token. *)
Lemma C7_witness :
  input_validation
    (routine (Sample.client true)
       (Payment_refund (Some "abc") None (Some "token"))) = Return tt
  ∧ operation_token (Payment_refund (Some "abc") None (Some "token"))
    = Some "token"
  ∧ "token" ≠ ""
  ∧ invoke (Sample.client true)
      (Payment_refund (Some "abc") None (Some "token")) 0
    = (Return "POST", 1,
       [EvSend {| method := "POST"; url := "/api/v1/payments/{payId}/refund";
                  data := None; params := None; token := Some "token";
                  entity_id := Some "abc" |} (Return (200, "POST"));
        EvHandle (200, "POST") "/api/v1/payments/{payId}/refund"
          (Return "POST")]).
Proof.
  assert (H3 : "token" ≠ "") by discriminate.
  split; [reflexivity|]. split; [reflexivity|]. split; [exact H3|].
  destruct (C7_operation_table_verbs (Sample.client true)
              (Payment_refund (Some "abc") None (Some "token")) "token" 0
              eq_refl eq_refl H3)
    as (out & s' & t & args & Hrun & -> & _ & _ & _ & Htie).
  rewrite Hrun, Htie. reflexivity.
Defined.

(** [test_pay] with an empty payload. *)
Lemma C8_witness :
  null_or_empty (Some ∅)
  ∧ "token" ≠ ""
  ∧ _validate_params (Some ∅) (Some REQUIRED_TEST_PAY_PARAMS) = Return true
  ∧ invoke (Sample.client true) (Test_pay (Some ∅) (Some "token")) 0
    = (Return "POST", 1,
       [EvSend {| method := "POST";
                  url := "https://test-ipspj-demopay.victoriabank.md/api/pay";
                  data := Some ∅; params := None; token := Some "token";
                  entity_id := None |} (Return (200, "POST"));
        EvHandle (200, "POST")
          "https://test-ipspj-demopay.victoriabank.md/api/pay"
          (Return "POST")]).
Proof.
  assert (H1 : null_or_empty (Some ∅)) by (right; reflexivity).
  assert (H2 : "token" ≠ "") by discriminate.
  split; [exact H1|]. split; [exact H2|].
  destruct (C8_empty_payload_skips_check (Sample.client true)
              (Test_pay (Some ∅) (Some "token")) _ _ "token" _ _ _ 0
              eq_refl H1 H2)
    as (Hv & out & s' & t & args & Hrun & -> & _ & Htie).
  split; [exact Hv|]. rewrite Hrun, Htie. reflexivity.
Defined.

(** [qr_create] with an empty payload and an empty token: [header] is
    missing, and the error raised is the token error. *)
Lemma C9_counterexample_empty_payload :
  let call := invoke (Sample.client true) (Qr_create (Some ∅) None (Some "")) 0 in
  "header" ∈ REQUIRED_QR_PARAMS
  ∧ field_missing (∅ : gmap string PyVal) "header"
  ∧ missing_or_empty (Some "")
  ∧ call = (Raise (VictoriabankPaymentException msg_access_token), 0, [])
  ∧ ¬ ∃ field s,
        call = (Raise (VictoriabankPaymentException (msg_missing_param field)),
                s, []).
Proof.
  cbv zeta. split; [repeat constructor|]. split; [by left|].
  split; [by right|]. split; [reflexivity|].
  intros (field & s & H). vm_compute in H. discriminate H.
Qed.

(** [qr_create] without [extension] and [qr_cancel] with an empty
    identifier, both with an empty token. *)
Lemma C9_witness :
  (Sample.header_only ≠ ∅
   ∧ "extension" ∈ REQUIRED_QR_PARAMS
   ∧ field_missing Sample.header_only "extension"
   ∧ missing_or_empty (Some "")
   ∧ invoke (Sample.client true)
       (Qr_create (Some Sample.header_only) None (Some "")) 0
     = (Raise (VictoriabankPaymentException
                 "Missing required parameter: extension"), 0, []))
  ∧ (Qr_cancel (Some "") None ∈ identifier_operations (Some "") None None None
     ∧ missing_or_empty (Some "")
     ∧ missing_or_empty None
     ∧ invoke (Sample.client true) (Qr_cancel (Some "") None) 0
       = (Raise (VictoriabankPaymentException "Missing ID."), 0, [])).
Proof.
  assert (H1 : Sample.header_only ≠ ∅)
    by (apply truthy_dict_nonempty; reflexivity).
  assert (H2 : "extension" ∈ REQUIRED_QR_PARAMS) by repeat constructor.
  assert (H3 : field_missing Sample.header_only "extension")
    by (left; reflexivity).
  assert (H4 : missing_or_empty (Some "")) by (right; reflexivity).
  assert (H5 : Qr_cancel (Some "") None
               ∈ identifier_operations (Some "") None None None)
    by repeat constructor.
  assert (H6 : missing_or_empty None) by (left; reflexivity).
  split.
  - repeat (split; [assumption|]).
    destruct (proj1 (C9_validation_order (Sample.client true))
                (Qr_create (Some Sample.header_only) None (Some ""))
                _ _ _ _ _ _ "extension" 0 eq_refl H1 H2 H3 H4)
      as (g & Hg & Hrun).
    vm_compute in Hg. injection Hg as <-. exact Hrun.
  - repeat (split; [assumption|]).
    exact (proj2 (C9_validation_order (Sample.client true))
             (Some "") None None None _ 0 H5 H4 H6).
Defined.

(** An identifier of three characters. *)
Lemma C10_witness :
  _validate_id_param (Some "abc") = Return tt
  ∧ _validate_id_param (Some "abc")
    ≠ Raise (VictoriabankPaymentException msg_invalid_id).
Proof.
  destruct (C10_invalid_id_branch_unreachable (Some "abc")) as (H & _ & Hne).
  split; [exact H | exact Hne].
Defined.

(** * Further properties of the validators *)

Lemma field_present_not_missing (d : gmap string PyVal) (field : string) :
  field_present d field ↔ ¬ field_missing d field.
Proof.
  unfold field_present, field_missing. destruct (d !! field) as [v|]; split.
  - intros (w & Hw & Hne) [Hm | Hm]; [discriminate|].
    rewrite Hm in Hw. inversion Hw. by subst.
  - intros Hn. exists v. split; [done|]. intros ->. apply Hn. by right.
  - intros (w & Hw & _). discriminate.
  - intros Hn. destruct Hn. by left.
Qed.

Lemma field_present_is_None (d : gmap string PyVal) (field : string) :
  field_present d field ↔ is_None (dict_get d field) = false.
Proof.
  rewrite field_present_not_missing, field_missing_is_None.
  by destruct (is_None (dict_get d field)).
Qed.

Lemma first_missing_None (d : gmap string PyVal) (req : list string) :
  first_missing d req = None ↔ Forall (field_present d) req.
Proof.
  unfold first_missing. induction req as [|param rest IH]; simpl.
  - split; [constructor | done].
  - destruct (is_None (dict_get d param)) eqn:E.
    + split; [done|]. intros Hall. apply Forall_cons in Hall as [Hp _].
      apply field_present_is_None in Hp. congruence.
    + rewrite IH. split.
      * intros Hall. constructor; [by apply field_present_is_None | done].
      * intros Hall. by apply Forall_cons in Hall as [_ Hall].
Qed.

Lemma first_missing_Some (d : gmap string PyVal) (req : list string)
    (g : string) :
  first_missing d req = Some g → g ∈ req ∧ field_missing d g.
Proof.
  unfold first_missing. intros H. apply List.find_some in H as [Hin Hg].
  split; [by apply list_elem_of_In | by apply field_missing_is_None].
Qed.

(** A key that is not required does not change which field is found
    missing first. *)
Lemma first_missing_insert_other (d : gmap string PyVal) (req : list string)
    (k : string) (v : PyVal) :
  k ∉ req → first_missing (<[k:=v]> d) req = first_missing d req.
Proof.
  unfold first_missing. induction req as [|param rest IH]; [done|].
  intros Hk. apply not_elem_of_cons in Hk as [Hne Hk]. simpl.
  unfold dict_get at 1 3. rewrite lookup_insert_ne by done.
  destruct (is_None (default PyNone (d !! param))); [done | by apply IH].
Qed.

(** A key set to [None] reads like a key that is not there. *)
Lemma dict_get_insert_None (d : gmap string PyVal) (k field : string) :
  d !! k = None → dict_get (<[k:=PyNone]> d) field = dict_get d field.
Proof.
  intros Hk. unfold dict_get. destruct (decide (k = field)) as [<- | Hne].
  - by rewrite lookup_insert_eq, Hk.
  - by rewrite lookup_insert_ne.
Qed.

Lemma first_missing_insert_None (d : gmap string PyVal) (req : list string)
    (k : string) :
  d !! k = None → first_missing (<[k:=PyNone]> d) req = first_missing d req.
Proof.
  intros Hk. unfold first_missing. induction req as [|param rest IH]; [done|].
  simpl. rewrite (dict_get_insert_None d k param Hk).
  destruct (is_None (dict_get d param)); [done | apply IH].
Qed.

(** X1: [_validate_access_token] returns exactly for the non-empty
    strings; for [None] and for the empty string it raises the token
    error, and never anything else: the short-circuit [or] keeps [len]
    away from [None]. *)
Theorem X1_access_token_verdict (token : PyStrArg) :
  _validate_access_token token
  = (if truthy_str token then Return tt
     else Raise (VictoriabankPaymentException msg_access_token))
  ∧ (truthy_str token = true ↔ ∃ tok, token = Some tok ∧ tok ≠ "")
  ∧ _validate_access_token token ≠ Raise TypeError_len_None.
Proof.
  split; [|split].
  - by destruct token as [[|c tok]|].
  - destruct token as [[|c tok]|]; simpl; split; try done.
    + by intros (tok & [= <-] & Hne).
    + intros _. by eexists.
    + by intros (tok & [=] & _).
  - by destruct token as [[|c tok]|].
Qed.

(** X2: for a non-empty payload, [_validate_params] returns [True]
    exactly when every required field has a value other than [None];
    the value itself is not looked at, so an empty string, zero, [False]
    or an empty dictionary passes. *)
Theorem X2_validate_params_presence_only
    (d : gmap string PyVal) (req : list string) :
  d ≠ ∅ →
  _validate_params (Some d) (Some req) = Return true
  ↔ Forall (field_present d) req.
Proof.
  intros Hd. rewrite (validate_params_nonempty d req Hd).
  rewrite <- first_missing_None.
  by destruct (first_missing d req).
Qed.

(** X3: for a non-empty payload, a key that is not required does not
    change the verdict of [_validate_params], whatever its value. *)
Theorem X3_validate_params_ignores_other_keys
    (d : gmap string PyVal) (req : list string) (k : string) (v : PyVal) :
  d ≠ ∅ →
  k ∉ req →
  _validate_params (Some (<[k:=v]> d)) (Some req)
  = _validate_params (Some d) (Some req).
Proof.
  intros Hd Hk.
  rewrite (validate_params_nonempty d req Hd).
  rewrite validate_params_nonempty by apply insert_non_empty.
  by rewrite first_missing_insert_other.
Qed.

(** X4: the empty payload passes [_validate_params] whatever is
    required, but a payload holding one key that is not required is
    checked, and fails on the first required field. *)
Theorem X4_validate_params_empty_versus_other_key
    (req : list string) (param : string) (rest : list string)
    (k : string) (v : PyVal) :
  req = param :: rest →
  k ∉ req →
  _validate_params (Some ∅) (Some req) = Return true
  ∧ _validate_params (Some {[k := v]}) (Some req)
    = Raise (VictoriabankPaymentException (msg_missing_param param)).
Proof.
  intros -> Hk. split; [reflexivity|].
  rewrite validate_params_nonempty by apply map_non_empty_singleton.
  apply not_elem_of_cons in Hk as [Hne _].
  unfold first_missing, dict_get. simpl.
  by rewrite lookup_singleton_ne.
Qed.

(** X5: in a non-empty payload, a key set to [None] counts as a key
    that is not there: adding [k: None] for an absent [k] leaves the
    verdict of [_validate_params] as it was. *)
Theorem X5_validate_params_null_is_absent
    (d : gmap string PyVal) (req : list string) (k : string) :
  d ≠ ∅ →
  d !! k = None →
  _validate_params (Some (<[k:=PyNone]> d)) (Some req)
  = _validate_params (Some d) (Some req).
Proof.
  intros Hd Hk.
  rewrite (validate_params_nonempty d req Hd).
  rewrite validate_params_nonempty by apply insert_non_empty.
  by rewrite first_missing_insert_None.
Qed.

(** Without a list of required fields ([None] or the empty list)
    [_validate_params] returns [True] for every payload. *)
Lemma validate_params_nothing_required
    (data : PyDictArg) (required_params : PyListArg) :
  required_params = None ∨ required_params = Some [] →
  _validate_params data required_params = Return true.
Proof.
  intros [-> | ->]; unfold _validate_params; simpl;
    by rewrite andb_false_r.
Qed.

(** * Further properties of the operations *)

Lemma send_args_eta (a : SendArgs) :
  {| method := method a; url := url a; data := data a; params := params a;
     token := token a; entity_id := entity_id a |} = a.
Proof. by destruct a. Qed.

Lemma validate_access_token_cases (token : PyStrArg) :
  _validate_access_token token = Return tt
  ∨ _validate_access_token token
    = Raise (VictoriabankPaymentException msg_access_token).
Proof. destruct token as [[|c tok]|]; auto. Qed.

Lemma validate_id_param_cases (entity_id : PyStrArg) :
  _validate_id_param entity_id = Return tt
  ∨ _validate_id_param entity_id
    = Raise (VictoriabankPaymentException msg_missing_id).
Proof. destruct entity_id as [[|c id]|]; auto. Qed.

Lemma validate_params_cases (data : PyDictArg) (required_params : PyListArg) :
  _validate_params data required_params = Return true
  ∨ ∃ d req param,
      data = Some d ∧ required_params = Some req ∧ param ∈ req
      ∧ field_missing d param
      ∧ _validate_params data required_params
        = Raise (VictoriabankPaymentException (msg_missing_param param)).
Proof.
  destruct data as [d|]; [|by left].
  destruct required_params as [req|];
    [|left; unfold _validate_params; simpl; by rewrite andb_false_r].
  destruct (decide (size d = 0)) as [Hz | Hnz].
  - left. apply validate_params_skipped. right.
    by rewrite (map_size_empty_inv d Hz).
  - apply map_size_non_empty_iff in Hnz.
    rewrite (validate_params_nonempty d req Hnz).
    destruct (first_missing d req) as [g|] eqn:Hg; [|by left].
    right. apply first_missing_Some in Hg as [Hin Hm].
    by exists d, req, g.
Qed.

Section Further.
Context {St Raw Res : Type}.
Variable _client : VictoriabankMiaSdk St Raw Res.

(** What the first validation of a call can give. *)
Lemma input_validation_cases (op : Operation) :
  input_validation (routine _client op) = Return tt
  ∨ ∃ msg,
      validation_message msg
      ∧ msg ≠ msg_access_token
      ∧ input_validation (routine _client op)
        = Raise (VictoriabankPaymentException msg).
Proof.
  destruct (routine _client op) as [ep d tok req m p | ep id tok m d p] eqn:Hr;
    simpl.
  - destruct (validate_params_cases d req)
      as [-> | (dm & r & param & -> & -> & Hin & _ & ->)]; [by left|].
    right. exists (msg_missing_param param). split; [|split; [|done]].
    + right; right. exists param. split; [|done].
      destruct (routine_required_params _client op _ _ _ _ _ _ Hr)
        as [[_ ->] | [_ ->]]; apply elem_of_app; auto.
    + discriminate.
  - destruct (validate_id_param_cases id) as [-> | ->]; [by left|].
    right. exists msg_missing_id. split; [by left|]. split; [|done].
    discriminate.
Qed.

(** A call whose validations pass is one [send_request] and, when that
    returns, one [handle_response]. *)
Lemma invoke_sent (op : Operation) (s : St) :
  input_validation (routine _client op) = Return tt →
  _validate_access_token (operation_token op) = Return tt →
  invoke _client op s
  = let a := routine_send_args (routine _client op) in
    match send_request _client a s with
    | (Return raw, s1) =>
        let '(o, s2) := handle_response _client raw (url a) s1 in
        (o, s2, [EvSend a (Return raw); EvHandle raw (url a) o])
    | (Raise ex, s1) =>
        (Raise (if isinstance_Exception ex
                then with_cause (VictoriabankPaymentException
                                   (msg_http_error (method a) (url a) ex)) ex
                else ex),
         s1, [EvSend a (Raise ex)])
    end.
Proof.
  intros Hin Htok. rewrite <- (routine_token_operation_token _client) in Htok.
  rewrite invoke_routine, (run_routine_dispatch _client _ s Hin Htok).
  cbv zeta. rewrite send_request_cases. cbv zeta.
  by rewrite send_args_eta.
Qed.

(** A call is rejected with one of the three messages, or sent. *)
Lemma invoke_rejected_or_sent (op : Operation) (s : St) :
  (∃ msg, validation_message msg
          ∧ invoke _client op s
            = (Raise (VictoriabankPaymentException msg), s, []))
  ∨ (input_validation (routine _client op) = Return tt
     ∧ _validate_access_token (operation_token op) = Return tt).
Proof.
  destruct (input_validation_cases op) as [Hin | (msg & Hmsg & _ & Hin)].
  - destruct (validate_access_token_cases (operation_token op))
      as [Htok | Htok]; [by right|].
    left. exists msg_access_token. split; [right; by left|].
    rewrite invoke_routine. apply run_routine_token_raise; [done|].
    by rewrite routine_token_operation_token.
  - left. exists msg. split; [done|].
    rewrite invoke_routine. by apply run_routine_input_raise.
Qed.

(** The three ways a call can go. *)
Lemma invoke_outcomes (op : Operation) (s : St) :
  let a := routine_send_args (routine _client op) in
  ∃ out s' t,
    invoke _client op s = (out, s', t)
    ∧ ((t = [] ∧ s' = s
        ∧ ∃ msg, validation_message msg
                 ∧ out = Raise (VictoriabankPaymentException msg))
       ∨ (∃ ex,
            send_request _client a s = (Raise ex, s')
            ∧ t = [EvSend a (Raise ex)]
            ∧ out = Raise (if isinstance_Exception ex
                           then with_cause
                                  (VictoriabankPaymentException
                                     (msg_http_error (method a) (url a) ex)) ex
                           else ex))
       ∨ (∃ raw s1,
            send_request _client a s = (Return raw, s1)
            ∧ handle_response _client raw (url a) s1 = (out, s')
            ∧ t = [EvSend a (Return raw); EvHandle raw (url a) out])).
Proof.
  intros a.
  destruct (invoke_rejected_or_sent op s) as [(msg & Hmsg & Hrun) | [Hin Htok]].
  - eexists _, _, _. split; [exact Hrun|]. left. by eauto.
  - rewrite (invoke_sent op s Hin Htok). cbv zeta. fold a.
    destruct (send_request _client a s) as [[raw|ex] s1] eqn:Hsend.
    + destruct (handle_response _client raw (url a) s1) as [o s2] eqn:Hh.
      eexists _, _, _. split; [reflexivity|]. right; right. by eauto.
    + eexists _, _, _. split; [reflexivity|]. right; left. by eauto.
Qed.

(** Whatever is sent is the request the method builds. *)
Lemma invoke_sends_args (op : Operation) (s s' : St) (out : Outcome Res)
    (t : list (Event Raw Res)) (args : SendArgs) :
  invoke _client op s = (out, s', t) →
  args ∈ sends t →
  args = routine_send_args (routine _client op).
Proof.
  intros Hrun Hin.
  destruct (invoke_outcomes op s) as (out' & s'' & t' & Hrun' & Hcases).
  rewrite Hrun in Hrun'. inversion Hrun'; subst out' s'' t'.
  destruct Hcases as [(-> & _) | [(ex & _ & -> & _) | (raw & s1 & _ & _ & ->)]];
    simpl in Hin.
  - by apply elem_of_nil in Hin.
  - by apply list_elem_of_singleton in Hin.
  - by apply list_elem_of_singleton in Hin.
Qed.

(** X6: a call during which nothing is asked of the client was
    rejected by a validator: it leaves the client's state as it was and
    raises the domain exception with one of three messages (missing
    identifier, invalid token, missing required field); it never
    returns a value and never raises anything else. *)
Theorem X6_rejected_calls (op : Operation) (s s' : St) (out : Outcome Res)
    (t : list (Event Raw Res)) :
  invoke _client op s = (out, s', t) →
  t = [] →
  s' = s
  ∧ ∃ msg, validation_message msg
           ∧ out = Raise (VictoriabankPaymentException msg).
Proof.
  intros Hrun Ht.
  destruct (invoke_outcomes op s) as (out' & s'' & t' & Hrun' & Hcases).
  rewrite Hrun in Hrun'. inversion Hrun'; subst out' s'' t'.
  destruct Hcases as [(_ & Hs & Hmsg) | [(ex & _ & Ht' & _) | (raw & s1 & _ & _ & Ht')]].
  - done.
  - rewrite Ht in Ht'. discriminate.
  - rewrite Ht in Ht'. discriminate.
Qed.

(** X7: no call retries: every call asks the client to send at most
    once, and calls [handle_response] at most once, only after a send
    that returned, on the very response it returned and on the endpoint
    the request went to; the outcome of that call is then the outcome
    of the method. *)
Theorem X7_single_request (op : Operation) (s : St) :
  ∃ out s' t,
    invoke _client op s = (out, s', t)
    ∧ (t = []
       ∨ (∃ ex, t = [EvSend (routine_send_args (routine _client op))
                       (Raise ex)])
       ∨ (∃ raw,
            t = [EvSend (routine_send_args (routine _client op)) (Return raw);
                 EvHandle raw (url (routine_send_args (routine _client op)))
                   out])).
Proof.
  destruct (invoke_outcomes op s) as (out & s' & t & Hrun & Hcases).
  exists out, s', t. split; [done|].
  destruct Hcases as [(-> & _) | [(ex & _ & -> & _) | (raw & s1 & _ & _ & ->)]];
    by eauto.
Qed.

(** X8: for every operation whose validations pass, when the client
    returns a raw response the outcome and the final state of the call
    are those of [handle_response] on that response; an exception
    raised by [handle_response] reaches the caller as it is, not
    wrapped. *)
Theorem X8_handle_response_decides (op : Operation) (tok : string)
    (s s1 : St) (raw : Raw) :
  input_validation (routine _client op) = Return tt →
  operation_token op = Some tok →
  tok ≠ "" →
  send_request _client (routine_send_args (routine _client op)) s
    = (Return raw, s1) →
  ∃ out s',
    handle_response _client raw
      (url (routine_send_args (routine _client op))) s1 = (out, s')
    ∧ invoke _client op s
      = (out, s',
         [EvSend (routine_send_args (routine _client op)) (Return raw);
          EvHandle raw (url (routine_send_args (routine _client op))) out]).
Proof.
  intros Hin Htok Hne Hsend.
  rewrite invoke_sent; [|done|].
  - cbv zeta. rewrite Hsend.
    destruct (handle_response _client raw _ s1) as [o s2]. by exists o, s2.
  - rewrite Htok. by apply validate_access_token_nonempty.
Qed.

(** X9: an object raised by [send_request] that is not an instance of
    [Exception] (such as [KeyboardInterrupt]) is not caught: the caller
    receives that very object, and [handle_response] is not called. *)
Theorem X9_base_exception_not_caught
    (op : Operation) (s s' : St) (out : Outcome Res)
    (t : list (Event Raw Res)) (args : SendArgs) (ex : PyExc) :
  invoke _client op s = (out, s', t) →
  EvSend args (Raise ex) ∈ t →
  isinstance_Exception ex = false →
  out = Raise ex ∧ t = [EvSend args (Raise ex)].
Proof.
  intros Hrun Hev Hbase.
  destruct (invoke_outcomes op s) as (out' & s'' & t' & Hrun' & Hcases).
  rewrite Hrun in Hrun'. inversion Hrun'; subst out' s'' t'.
  destruct Hcases
    as [(-> & _) | [(ex' & _ & -> & ->) | (raw & s1 & _ & _ & ->)]].
  - by apply elem_of_nil in Hev.
  - apply list_elem_of_singleton in Hev. inversion Hev; subst.
    by rewrite Hbase.
  - rewrite !elem_of_cons, elem_of_nil in Hev.
    destruct Hev as [Hev | [Hev | []]]; discriminate.
Qed.

(** X10: for every operation whose validations pass, when the
    client's [send_request] raises an instance of [Exception], the
    caller receives a [VictoriabankPaymentException] whose message is
    exactly "HTTP error while sending <verb> request to endpoint
    <endpoint>: <text>", where <text> is [str] of the exception the
    client raised, and whose cause is that exception. *)
Theorem X10_http_error_message
    (op : Operation) (tok : string) (s s1 : St) (ex : PyExc) :
  input_validation (routine _client op) = Return tt →
  operation_token op = Some tok →
  tok ≠ "" →
  send_request _client (routine_send_args (routine _client op)) s
    = (Raise ex, s1) →
  isinstance_Exception ex = true →
  ∃ e,
    invoke _client op s
    = (Raise e, s1,
       [EvSend (routine_send_args (routine _client op)) (Raise ex)])
    ∧ exc_class e = VictoriabankPaymentExceptionClass
    ∧ exc_str e
      = "HTTP error while sending " +:+ operation_table_verb op
          +:+ " request to endpoint "
          +:+ url (routine_send_args (routine _client op))
          +:+ ": " +:+ exc_str ex
    ∧ exc_cause e = Some ex.
Proof.
  intros Hin Htok Hne Hsend Hexc.
  rewrite invoke_sent;
    [|done|rewrite Htok; by apply validate_access_token_nonempty].
  cbv zeta. rewrite Hsend, Hexc. eexists. split; [reflexivity|].
  simpl. by rewrite <- (routine_method_table _client op).
Qed.

(** X11: a request sent with GET or DELETE carries no body: for every
    operation, when the method of the request is GET or DELETE its
    [data] is [None]. *)
Theorem X11_no_body_for_get_and_delete
    (op : Operation) (s s' : St) (out : Outcome Res)
    (t : list (Event Raw Res)) (args : SendArgs) :
  invoke _client op s = (out, s', t) →
  args ∈ sends t →
  method args = "GET" ∨ method args = "DELETE" →
  data args = None.
Proof.
  intros Hrun Hin Hverb.
  rewrite (invoke_sends_args op s s' out t args Hrun Hin) in Hverb |- *.
  destruct op; simpl in *; try done; destruct Hverb; discriminate.
Qed.

(** X12: every argument of a method reaches the client as it was
    given: the request carries the token, the payload, the query
    parameters and the identifier of the call, and [None] where the
    method has no such argument. *)
Theorem X12_arguments_forwarded
    (op : Operation) (s s' : St) (out : Outcome Res)
    (t : list (Event Raw Res)) (args : SendArgs) :
  invoke _client op s = (out, s', t) →
  args ∈ sends t →
  token args = operation_token op
  ∧ data args = operation_data op
  ∧ params args = operation_params op
  ∧ entity_id args = operation_entity_id op.
Proof.
  intros Hrun Hin.
  rewrite (invoke_sends_args op s s' out t args Hrun Hin).
  by destruct op.
Qed.

(** Nothing is asked of the client exactly when a validation fails. *)
Lemma invoke_trace_empty_iff (op : Operation) (s s' : St) (out : Outcome Res)
    (t : list (Event Raw Res)) :
  invoke _client op s = (out, s', t) →
  t = [] ↔ ¬ (input_validation (routine _client op) = Return tt
              ∧ _validate_access_token (operation_token op) = Return tt).
Proof.
  intros Hrun. split.
  - intros -> [Hin Htok]. rewrite (invoke_sent op s Hin Htok) in Hrun.
    cbv zeta in Hrun.
    destruct (send_request _client _ s) as [[raw|ex] s1].
    + destruct (handle_response _client raw _ s1) as [o s2]. discriminate.
    + discriminate.
  - intros Hnot.
    destruct (invoke_rejected_or_sent op s) as [(msg & _ & Hrun') | Hpass];
      [|done].
    rewrite Hrun in Hrun'. by inversion Hrun'.
Qed.

(** X13: [transactions_list] and [payment_list] validate nothing but
    the token: whatever the query parameters, a call is rejected (the
    client is asked nothing) exactly when the token is [None] or
    empty. *)
Theorem X13_list_operations_check_token_only
    (params : PyDictArg) (token : PyStrArg) (op : Operation)
    (s s' : St) (out : Outcome Res) (t : list (Event Raw Res)) :
  op = Transactions_list params token ∨ op = Payment_list params token →
  invoke _client op s = (out, s', t) →
  t = [] ↔ missing_or_empty token.
Proof.
  intros Hop Hrun. rewrite (invoke_trace_empty_iff op s s' out t Hrun).
  assert (Hin : input_validation (routine _client op) = Return tt)
    by (destruct Hop as [-> | ->]; reflexivity).
  assert (Htok : operation_token op = token)
    by (destruct Hop as [-> | ->]; reflexivity).
  rewrite Htok, <- truthy_str_false.
  destruct token as [[|c tok]|]; simpl; split; try done;
    try (intros _ [_ H]; discriminate H).
  intros H. destruct H. by split.
Qed.

(** X14: the seven identifier-based operations validate the identifier
    and the token and nothing else: whatever the payload and the query
    parameters (also for [qr_create_extension] and [payment_refund],
    which take a payload), a call is rejected exactly when the
    identifier or the token is [None] or empty. *)
Theorem X14_identifier_operations_check_id_and_token_only
    (id : PyStrArg) (data params : PyDictArg) (token : PyStrArg)
    (op : Operation) (s s' : St) (out : Outcome Res)
    (t : list (Event Raw Res)) :
  op ∈ identifier_operations id data params token →
  invoke _client op s = (out, s', t) →
  t = [] ↔ missing_or_empty id ∨ missing_or_empty token.
Proof.
  intros Hop Hrun. rewrite (invoke_trace_empty_iff op s s' out t Hrun).
  destruct (routine_identifier_operations _client id data params token op Hop)
    as (endpoint & method & d & p & Hr).
  pose proof (routine_token_operation_token _client op) as Htok.
  rewrite Hr in Htok |- *. simpl in Htok |- *. rewrite <- Htok.
  rewrite <- !truthy_str_false.
  destruct id as [[|c i]|], token as [[|c' tk]|]; simpl; split;
    try (intros _; by auto);
    try (intros _ [H1 H2]; discriminate).
  - intros H. destruct H. by split.
  - intros [H | H]; discriminate.
Qed.

End Further.

(** X15: whether a call is rejected, and with which exception, depends
    on its arguments alone: a call rejected on one client, in one state,
    is rejected with the same exception on any other client, in any
    state. *)
Theorem X15_rejection_independent_of_client
    {St1 Raw1 Res1 St2 Raw2 Res2 : Type}
    (c1 : VictoriabankMiaSdk St1 Raw1 Res1)
    (c2 : VictoriabankMiaSdk St2 Raw2 Res2)
    (op : Operation) (s1 s1' : St1) (s2 : St2) (out : Outcome Res1) :
  invoke c1 op s1 = (out, s1', []) →
  ∃ e, out = Raise e ∧ s1' = s1 ∧ invoke c2 op s2 = (Raise e, s2, []).
Proof.
  intros Hrun.
  assert (Hsame : input_validation (routine c1 op)
                  = input_validation (routine c2 op)) by by destruct op.
  destruct (input_validation (routine c1 op)) as [[]|e] eqn:Hin.
  - destruct (_validate_access_token (operation_token op)) as [[]|e] eqn:Htok.
    + pose proof (proj1 (invoke_trace_empty_iff c1 op s1 s1' out [] Hrun)
                    eq_refl) as Hnot.
      by destruct Hnot.
    + assert (Hr1 : invoke c1 op s1 = (Raise e, s1, [])).
      { rewrite invoke_routine. apply run_routine_token_raise; [done|].
        by rewrite routine_token_operation_token. }
      rewrite Hrun in Hr1. inversion Hr1; subst.
      exists e. split; [done|]. split; [done|].
      rewrite invoke_routine. apply run_routine_token_raise; [done|].
      by rewrite routine_token_operation_token.
  - assert (Hr1 : invoke c1 op s1 = (Raise e, s1, [])).
    { rewrite invoke_routine. by apply run_routine_input_raise. }
    rewrite Hrun in Hr1. inversion Hr1; subst.
    exists e. split; [done|]. split; [done|].
    rewrite invoke_routine. by apply run_routine_input_raise.
Qed.

(** * The further properties at work on the sample clients *)

(** The token of three characters, against [None]. *)
Lemma X1_witness :
  _validate_access_token (Some "abc") = Return tt
  ∧ _validate_access_token None
    = Raise (VictoriabankPaymentException msg_access_token).
Proof.
  split.
  - exact (proj1 (X1_access_token_verdict (Some "abc"))).
  - exact (proj1 (X1_access_token_verdict None)).
Defined.

(** A payload whose required fields are an empty string and [False]. *)
Lemma X2_witness :
  Edge.falsy_payload ≠ ∅
  ∧ Forall (field_present Edge.falsy_payload) REQUIRED_QR_PARAMS
  ∧ _validate_params (Some Edge.falsy_payload) (Some REQUIRED_QR_PARAMS)
    = Return true.
Proof.
  assert (H1 : Edge.falsy_payload ≠ ∅)
    by (apply truthy_dict_nonempty; reflexivity).
  assert (H2 : Forall (field_present Edge.falsy_payload) REQUIRED_QR_PARAMS).
  { repeat constructor.
    - exists (PyStr ""). split; [reflexivity | discriminate].
    - exists (PyBool false). split; [reflexivity | discriminate]. }
  split; [exact H1|]. split; [exact H2|].
  exact (proj2 (X2_validate_params_presence_only
                  Edge.falsy_payload REQUIRED_QR_PARAMS H1) H2).
Defined.

(** The payload without [extension], with a key [note] added. *)
Lemma X3_witness :
  Sample.header_only ≠ ∅
  ∧ ("note" ∉ REQUIRED_QR_PARAMS)
  ∧ _validate_params (Some (<["note" := PyStr "x"]> Sample.header_only))
      (Some REQUIRED_QR_PARAMS)
    = _validate_params (Some Sample.header_only) (Some REQUIRED_QR_PARAMS).
Proof.
  assert (H1 : Sample.header_only ≠ ∅)
    by (apply truthy_dict_nonempty; reflexivity).
  assert (H2 : "note" ∉ REQUIRED_QR_PARAMS).
  { intros H. unfold REQUIRED_QR_PARAMS in H.
    rewrite !elem_of_cons, elem_of_nil in H.
    destruct H as [H | [H | []]]; discriminate H. }
  split; [exact H1|]. split; [exact H2|].
  exact (X3_validate_params_ignores_other_keys
           Sample.header_only REQUIRED_QR_PARAMS "note" (PyStr "x") H1 H2).
Defined.

(** [{}] against [{"note": "x"}] for [qr_create]. *)
Lemma X4_witness :
  REQUIRED_QR_PARAMS = "header" :: ["extension"]
  ∧ ("note" ∉ REQUIRED_QR_PARAMS)
  ∧ _validate_params (Some ∅) (Some REQUIRED_QR_PARAMS) = Return true
  ∧ _validate_params (Some {["note" := PyStr "x"]}) (Some REQUIRED_QR_PARAMS)
    = Raise (VictoriabankPaymentException "Missing required parameter: header").
Proof.
  assert (H2 : "note" ∉ REQUIRED_QR_PARAMS).
  { intros H. unfold REQUIRED_QR_PARAMS in H.
    rewrite !elem_of_cons, elem_of_nil in H.
    destruct H as [H | [H | []]]; discriminate H. }
  split; [reflexivity|]. split; [exact H2|].
  exact (X4_validate_params_empty_versus_other_key
           REQUIRED_QR_PARAMS "header" ["extension"] "note" (PyStr "x")
           eq_refl H2).
Defined.

(** The payload without [extension], with [extension] set to [None]. *)
Lemma X5_witness :
  Sample.header_only ≠ ∅
  ∧ Sample.header_only !! "extension" = None
  ∧ _validate_params (Some (<["extension" := PyNone]> Sample.header_only))
      (Some REQUIRED_QR_PARAMS)
    = _validate_params (Some Sample.header_only) (Some REQUIRED_QR_PARAMS).
Proof.
  assert (H1 : Sample.header_only ≠ ∅)
    by (apply truthy_dict_nonempty; reflexivity).
  split; [exact H1|]. split; [reflexivity|].
  exact (X5_validate_params_null_is_absent
           Sample.header_only REQUIRED_QR_PARAMS "extension" H1 eq_refl).
Defined.

(** [qr_status] without an identifier. *)
Lemma X6_witness :
  ∃ (out : Outcome string) (s' : nat) (t : list (Event Sample.Raw string)),
    invoke (Sample.client true) (Qr_status None None (Some "token")) 0
      = (out, s', t)
    ∧ t = []
    ∧ s' = 0
    ∧ ∃ msg, validation_message msg
             ∧ out = Raise (VictoriabankPaymentException msg).
Proof.
  exists (Raise (VictoriabankPaymentException msg_missing_id)), 0, [].
  assert (H1 : invoke (Sample.client true)
                 (Qr_status None None (Some "token")) 0
               = (Raise (VictoriabankPaymentException msg_missing_id), 0, []))
    by reflexivity.
  split; [exact H1|]. split; [reflexivity|].
  exact (X6_rejected_calls (Sample.client true) _ 0 0 _ [] H1 eq_refl).
Defined.

(** [payment_list] on the sample client. *)
Lemma X7_witness :
  ∃ out s' t,
    invoke (Sample.client true) (Payment_list None (Some "token")) 0
      = (out, s', t)
    ∧ length t ≤ 2.
Proof.
  destruct (X7_single_request (Sample.client true)
              (Payment_list None (Some "token")) 0)
    as (out & s' & t & Hrun & Hcases).
  exists out, s', t. split; [exact Hrun|].
  destruct Hcases as [-> | [(ex & ->) | (raw & ->)]]; simpl; lia.
Defined.

(** [qr_status] answered with status 200. *)
Lemma X8_witness :
  input_validation
    (routine (Sample.client true) (Qr_status (Some "abc") None (Some "token")))
    = Return tt
  ∧ "token" ≠ ""
  ∧ send_request (Sample.client true)
      (routine_send_args
         (routine (Sample.client true)
            (Qr_status (Some "abc") None (Some "token")))) 0
    = (Return (200, "GET"), 1)
  ∧ ∃ out s',
      handle_response (Sample.client true) (200, "GET")
        "/api/v1/qr/{qrHeaderUUID}/status" 1 = (out, s')
      ∧ (invoke (Sample.client true)
           (Qr_status (Some "abc") None (Some "token")) 0).1.1 = out.
Proof.
  assert (H3 : "token" ≠ "") by discriminate.
  split; [reflexivity|]. split; [exact H3|]. split; [reflexivity|].
  destruct (X8_handle_response_decides (Sample.client true)
              (Qr_status (Some "abc") None (Some "token")) "token" 0 1
              (200, "GET") eq_refl eq_refl H3 eq_refl)
    as (out & s' & Hh & Hrun).
  exists out, s'. split; [exact Hh|]. by rewrite Hrun.
Defined.

(** [qr_cancel] interrupted during the send. *)
Lemma X9_witness :
  ∃ (out : Outcome string) (s' : nat) (t : list (Event Sample.Raw string))
    (args : SendArgs),
    invoke Edge.interrupted_client (Qr_cancel (Some "abc") (Some "token")) 0
      = (out, s', t)
    ∧ EvSend args (Raise Edge.KeyboardInterrupt) ∈ t
    ∧ isinstance_Exception Edge.KeyboardInterrupt = false
    ∧ out = Raise Edge.KeyboardInterrupt
    ∧ t = [EvSend args (Raise Edge.KeyboardInterrupt)].
Proof.
  set (args := {| method := "DELETE"; url := "/api/v1/qr/{qrHeaderUUID}";
                  data := None; params := None; token := Some "token";
                  entity_id := Some "abc" |}).
  exists (Raise Edge.KeyboardInterrupt), 1,
    [EvSend args (Raise Edge.KeyboardInterrupt)], args.
  assert (H1 : invoke Edge.interrupted_client
                 (Qr_cancel (Some "abc") (Some "token")) 0
               = (Raise Edge.KeyboardInterrupt, 1,
                  [EvSend args (Raise Edge.KeyboardInterrupt)]))
    by reflexivity.
  assert (H2 : @EvSend Sample.Raw string args (Raise Edge.KeyboardInterrupt)
               ∈ [EvSend args (Raise Edge.KeyboardInterrupt)])
    by (apply list_elem_of_singleton; reflexivity).
  split; [exact H1|]. split; [exact H2|]. split; [reflexivity|].
  exact (X9_base_exception_not_caught Edge.interrupted_client
           _ 0 1 _ _ args Edge.KeyboardInterrupt H1 H2 eq_refl).
Defined.

(** [payment_details] on a client that cannot connect. *)
Lemma X10_witness :
  input_validation
    (routine (Sample.client false)
       (Payment_details (Some "abc") (Some "token"))) = Return tt
  ∧ operation_token (Payment_details (Some "abc") (Some "token"))
    = Some "token"
  ∧ "token" ≠ ""
  ∧ send_request (Sample.client false)
      (routine_send_args
         (routine (Sample.client false)
            (Payment_details (Some "abc") (Some "token")))) 0
    = (Raise Sample.ConnectionError, 1)
  ∧ isinstance_Exception Sample.ConnectionError = true
  ∧ ∃ e,
      invoke (Sample.client false)
        (Payment_details (Some "abc") (Some "token")) 0
      = (Raise e, 1,
         [EvSend {| method := "GET"; url := "/api/v1/payments/{payId}";
                    data := None; params := None; token := Some "token";
                    entity_id := Some "abc" |}
            (Raise Sample.ConnectionError)])
      ∧ exc_str e
        = "HTTP error while sending GET request to endpoint "
            +:+ "/api/v1/payments/{payId}: connection refused"
      ∧ exc_cause e = Some Sample.ConnectionError.
Proof.
  assert (H3 : "token" ≠ "") by discriminate.
  split; [reflexivity|]. split; [reflexivity|]. split; [exact H3|].
  split; [reflexivity|]. split; [reflexivity|].
  destruct (X10_http_error_message (Sample.client false)
              (Payment_details (Some "abc") (Some "token")) "token" 0 1
              Sample.ConnectionError eq_refl eq_refl H3 eq_refl eq_refl)
    as (e & Hrun & _ & Hstr & Hcause).
  exists e. split; [exact Hrun|]. split; [exact Hstr | exact Hcause].
Defined.

(** [qr_cancel_extension] sends DELETE, without a body. *)
Lemma X11_witness :
  ∃ (out : Outcome string) (s' : nat) (t : list (Event Sample.Raw string))
    (args : SendArgs),
    invoke (Sample.client true)
      (Qr_cancel_extension (Some "abc") (Some "token")) 0 = (out, s', t)
    ∧ args ∈ sends t
    ∧ (method args = "GET" ∨ method args = "DELETE")
    ∧ data args = None.
Proof.
  set (args := {| method := "DELETE";
                  url := "/api/v1/qr/{qrHeaderUUID}/active-extension";
                  data := None; params := None; token := Some "token";
                  entity_id := Some "abc" |}).
  eexists (Return "DELETE"), 1, _, args.
  assert (H1 : invoke (Sample.client true)
                 (Qr_cancel_extension (Some "abc") (Some "token")) 0
               = (Return "DELETE", 1,
                  [EvSend args (Return (200, "DELETE"));
                   EvHandle (200, "DELETE")
                     "/api/v1/qr/{qrHeaderUUID}/active-extension"
                     (Return "DELETE")]))
    by reflexivity.
  assert (H2 : args ∈ sends [@EvSend Sample.Raw string args
                               (Return (200, "DELETE"));
                             EvHandle (200, "DELETE")
                               "/api/v1/qr/{qrHeaderUUID}/active-extension"
                               (Return "DELETE")])
    by (apply list_elem_of_singleton; reflexivity).
  assert (H3 : method args = "GET" ∨ method args = "DELETE")
    by (right; reflexivity).
  split; [exact H1|]. split; [exact H2|]. split; [exact H3|].
  exact (X11_no_body_for_get_and_delete (Sample.client true)
           _ 0 1 _ _ args H1 H2 H3).
Defined.

(** [payment_refund] forwards identifier, payload and token. *)
Lemma X12_witness :
  ∃ (out : Outcome string) (s' : nat) (t : list (Event Sample.Raw string))
    (args : SendArgs),
    invoke (Sample.client true)
      (Payment_refund (Some "abc") (Some Sample.header_only) (Some "token")) 0
      = (out, s', t)
    ∧ args ∈ sends t
    ∧ token args = Some "token"
    ∧ data args = Some Sample.header_only
    ∧ params args = None
    ∧ entity_id args = Some "abc".
Proof.
  set (args := {| method := "POST"; url := "/api/v1/payments/{payId}/refund";
                  data := Some Sample.header_only; params := None;
                  token := Some "token"; entity_id := Some "abc" |}).
  eexists (Return "POST"), 1, _, args.
  assert (H1 : invoke (Sample.client true)
                 (Payment_refund (Some "abc") (Some Sample.header_only)
                    (Some "token")) 0
               = (Return "POST", 1,
                  [EvSend args (Return (200, "POST"));
                   EvHandle (200, "POST") "/api/v1/payments/{payId}/refund"
                     (Return "POST")]))
    by reflexivity.
  assert (H2 : args ∈ sends [@EvSend Sample.Raw string args
                               (Return (200, "POST"));
                             EvHandle (200, "POST")
                               "/api/v1/payments/{payId}/refund"
                               (Return "POST")])
    by (apply list_elem_of_singleton; reflexivity).
  split; [exact H1|]. split; [exact H2|].
  exact (X12_arguments_forwarded (Sample.client true) _ 0 1 _ _ args H1 H2).
Defined.

(** [transactions_list] with an empty token. *)
Lemma X13_witness :
  (Transactions_list None (Some "") = Transactions_list None (Some "")
   ∨ Transactions_list None (Some "") = Payment_list None (Some ""))
  ∧ invoke (Sample.client true) (Transactions_list None (Some "")) 0
    = (Raise (VictoriabankPaymentException msg_access_token), 0, [])
  ∧ missing_or_empty (Some "").
Proof.
  assert (H1 : Transactions_list None (Some "")
               = Transactions_list None (Some "")
               ∨ Transactions_list None (Some "") = Payment_list None (Some ""))
    by (left; reflexivity).
  assert (H2 : invoke (Sample.client true)
                 (Transactions_list None (Some "")) 0
               = (Raise (VictoriabankPaymentException msg_access_token), 0, []))
    by reflexivity.
  split; [exact H1|]. split; [exact H2|].
  exact (proj1 (X13_list_operations_check_token_only (Sample.client true)
                  None (Some "") _ 0 0 _ [] H1 H2) eq_refl).
Defined.

(** [qr_create_extension] without a payload is sent all the same. *)
Lemma X14_witness :
  ∃ (out : Outcome string) (s' : nat) (t : list (Event Sample.Raw string)),
    Qr_create_extension (Some "abc") None (Some "token")
      ∈ identifier_operations (Some "abc") None None (Some "token")
    ∧ invoke (Sample.client true)
        (Qr_create_extension (Some "abc") None (Some "token")) 0 = (out, s', t)
    ∧ t ≠ []
    ∧ ¬ (missing_or_empty (Some "abc") ∨ missing_or_empty (Some "token")).
Proof.
  eexists (Return "POST"), 1, _.
  assert (H1 : Qr_create_extension (Some "abc") None (Some "token")
               ∈ identifier_operations (Some "abc") None None (Some "token"))
    by repeat constructor.
  assert (H2 : invoke (Sample.client true)
                 (Qr_create_extension (Some "abc") None (Some "token")) 0
               = (Return "POST", 1,
                  [EvSend {| method := "POST";
                             url := "/api/v1/qr/{qrHeaderUUID}/extentions";
                             data := None; params := None;
                             token := Some "token";
                             entity_id := Some "abc" |}
                     (Return (200, "POST"));
                   EvHandle (200, "POST")
                     "/api/v1/qr/{qrHeaderUUID}/extentions" (Return "POST")]))
    by reflexivity.
  split; [exact H1|]. split; [exact H2|]. split; [discriminate|].
  intros Hmiss.
  pose proof (proj2 (X14_identifier_operations_check_id_and_token_only
                       (Sample.client true) (Some "abc") None None
                       (Some "token") _ 0 1 _ _ H1 H2) Hmiss) as Hnil.
  discriminate Hnil.
Defined.

(** A call rejected on the sample client is rejected on the interrupted
    one. *)
Lemma X15_witness :
  invoke (Sample.client true) (Test_pay (Some Sample.header_only) (Some "token")) 0
    = (Raise (VictoriabankPaymentException
                "Missing required parameter: qrHeaderUUID"), 0, [])
  ∧ invoke Edge.interrupted_client
      (Test_pay (Some Sample.header_only) (Some "token")) 7
    = (Raise (VictoriabankPaymentException
                "Missing required parameter: qrHeaderUUID"), 7, []).
Proof.
  assert (H1 : invoke (Sample.client true)
                 (Test_pay (Some Sample.header_only) (Some "token")) 0
               = (Raise (VictoriabankPaymentException
                           "Missing required parameter: qrHeaderUUID"), 0, []))
    by reflexivity.
  split; [exact H1|].
  destruct (X15_rejection_independent_of_client (Sample.client true)
              Edge.interrupted_client _ 0 0 7 _ H1)
    as (e & He & _ & Hrun).
  injection He as <-. exact Hrun.
Defined.
